(** * The provisioner of the Carver Feeds skill ([scripts/auto_init.py])

  A shallow embedding of the bootstrap script and the properties of its
  provisioning sequence: exit statuses, the structured lines on standard
  output, credential-file parsing, interpreter selection and the
  fatal / non-fatal classification of its steps.

  Conventions.  A Python [str] is a [string]; a character stands for the
  code point of the same number (0..255).  The only literal of the script
  outside that range, the check mark of some progress messages, is written
  as its UTF-8 bytes.  Integers are [Z].  Standard output takes every
  character, a file that exists and is not a directory can be read as text,
  and nobody interrupts the script from the keyboard. *)

From Stdlib Require Import ZArith List Bool Ascii String Lia.
From Stdlib Require Import DecimalString.
Import ListNotations.

Open Scope string_scope.
Open Scope Z_scope.

(** ** Python string operations used by the script *)

Module PyStr.

(** The double quote and the line feed, which string literals of this file
    do not spell out. *)
Definition dq : string := String (ascii_of_nat 34) EmptyString.
Definition nl : string := String (ascii_of_nat 10) EmptyString.

(** [str.isspace] on one character, for code points below 256:
    [\t \n \v \f \r], the separators [\x1c .. \x1f], the space, NEL and
    the no-break space. *)
Definition is_space (c : ascii) : bool :=
  let n := nat_of_ascii c in
  ((9 <=? n) && (n <=? 13))%nat || ((28 <=? n) && (n <=? 32))%nat
  || (n =? 133)%nat || (n =? 160)%nat.

(** [s.lstrip()] *)
Fixpoint lstrip (s : string) : string :=
  match s with
  | EmptyString => EmptyString
  | String c t => if is_space c then lstrip t else s
  end.

(** [s.rstrip()] *)
Fixpoint rstrip (s : string) : string :=
  match s with
  | EmptyString => EmptyString
  | String c t =>
      match rstrip t with
      | EmptyString => if is_space c then EmptyString else String c EmptyString
      | t' => String c t'
      end
  end.

(** [s.strip()] *)
Definition strip (s : string) : string := rstrip (lstrip s).

(** [s.startswith(p)] *)
Fixpoint startswith (s p : string) {struct p} : bool :=
match p with
| EmptyString => true
| String c p' =>
    match s with
    | EmptyString => false
    | String d s' => Ascii.eqb c d && startswith s' p'
    end
end.

(** [needle in hay] *)
Fixpoint contains (needle hay : string) : bool :=
  startswith hay needle ||
  match hay with
  | EmptyString => false
  | String _ t => contains needle t
  end.

(** [s.partition(sep)] when [sep] occurs: the text before and the text
    after the first occurrence of the one-character separator. *)
Fixpoint cut (sep : ascii) (s : string) : option (string * string) :=
  match s with
  | EmptyString => None
  | String c t =>
      if Ascii.eqb c sep then Some (EmptyString, t)
      else match cut sep t with
           | Some (a, b) => Some (String c a, b)
           | None => None
           end
  end.

(** [s.split(sep, 1)] for a one-character separator: one or two pieces. *)
Definition split1 (sep : ascii) (s : string) : list string :=
  match cut sep s with
  | Some (a, b) => [a; b]
  | None => [s]
  end.

(** [str(n)] for a non-negative integer. *)
Definition str_of_nat (n : nat) : string :=
  NilEmpty.string_of_uint (Nat.to_uint n).

(** [c * n] for a one-character string [c]. *)
Fixpoint repeat_char (c : ascii) (n : nat) : string :=
  match n with
  | O => EmptyString
  | S k => String c (repeat_char c k)
  end.

(** Iterating over a file opened in text mode: the lines of the text, each
    with its terminator.  Universal newlines are on, so [\r\n] and a lone
    [\r] end a line as [\n] does and are handed over as [\n]. *)
Fixpoint readlines_from (cur : string) (s : string) : list string :=
  match s with
  | EmptyString =>
      match cur with EmptyString => [] | _ => [cur] end
  | String c t =>
      if Ascii.eqb c (ascii_of_nat 10) then (cur ++ nl) :: readlines_from EmptyString t
      else if Ascii.eqb c (ascii_of_nat 13) then
        match t with
        | String c' t' =>
            if Ascii.eqb c' (ascii_of_nat 10)
            then (cur ++ nl) :: readlines_from EmptyString t'
            else (cur ++ nl) :: readlines_from EmptyString t
        | EmptyString => [cur ++ nl]
        end
      else readlines_from (cur ++ String c EmptyString) t
  end.

Definition readlines (s : string) : list string := readlines_from EmptyString s.

End PyStr.

Import PyStr.

(** ** The host: file system, child processes, paths *)

(** What a path names. *)
Inductive node : Type :=
| File (text : string)
| Dir.

(** Exceptions the script can meet.  All of them derive from [Exception]. *)
Inductive exn : Type :=
| TypeError (msg : string)
| IndexError (msg : string)
| CalledProcessError (returncode : Z) (cmd : list string)
| TimeoutExpired (cmd : list string) (timeout : Z)
| OSError (errname : string) (filename : string).

(** One use of [subprocess]: the argument vector and the keyword arguments
  the script passes. *)
Record Call : Type := mkCall {
args : list string;
capture_output : bool;
text : bool;
timeout : Z
}.

(** [subprocess.CompletedProcess] *)
Record CompletedProcess : Type := mkCompleted {
returncode : Z;
stdout : string;
stderr : string
}.

(** A child either runs to completion or the call raises (the executable is
  missing, the time allowance ran out, the output does not decode). *)
Inductive Outcome : Type :=
| Completed (r : CompletedProcess)
| Failed (e : exn).

(** The machine the script runs on.  [World] is its whole state; the script
  observes it through [lookup] and changes it only by running children. *)
Record Host (World : Type) : Type := mkHost {
lookup : World -> string -> option node;
spawn : Call -> World -> Outcome * World;
path_join : string -> string -> string;      (* [p / name] *)
path_parent : string -> string;              (* [p.parent] *)
path_resolve : string -> string;             (* [p.resolve()] *)
describe : exn -> string                     (* [str(e)] *)
}.

Arguments lookup {World} _ _ _.
Arguments spawn {World} _ _ _.
Arguments path_join {World} _ _ _.
Arguments path_parent {World} _ _.
Arguments path_resolve {World} _ _.
Arguments describe {World} _ _.

(** The interpreter process running the script. *)
Record Process : Type := mkProcess {
sys_argv : list string;
sys_platform : string;
script_file : string;      (* [__file__] *)
os_getcwd : string         (* [Path.cwd()] *)
}.

(** ** Effects: state, [sys.exit] and exceptions *)

(** How a computation ends: with a value, by [sys.exit(code)], or with an
  exception.  [SystemExit] is not an [Exception], so a handler for
  [Exception] never intercepts [Exit]. *)
Inductive result (A : Type) : Type :=
| Ret (a : A)
| Exit (code : Z)
| Raise (e : exn).

Arguments Ret {A} a.
Arguments Exit {A} code.
Arguments Raise {A} e.

(** The state threaded through the script: the machine, the text written to
  standard output so far, and the children started so far (oldest first).
  The output of a child that is not captured lands on the same standard
  output, at the point where the script waits for the child. *)
Record state (World : Type) : Type := mkState {
world : World;
out : string;
spawned : list Call
}.

Arguments mkState {World} _ _ _.
Arguments world {World} _.
Arguments out {World} _.
Arguments spawned {World} _.

Definition M (World A : Type) : Type := state World -> result A * state World.

Definition ret {W A} (a : A) : M W A := fun s => (Ret a, s).

Definition bind {W A B} (m : M W A) (k : A -> M W B) : M W B :=
fun s =>
  match m s with
  | (Ret a, s') => k a s'
  | (Exit c, s') => (Exit c, s')
  | (Raise e, s') => (Raise e, s')
  end.

Declare Scope py_scope.
Delimit Scope py_scope with py.
Notation "x <- m ;; k" := (bind m (fun x => k))
(at level 100, m at next level, right associativity) : py_scope.
Notation "m ;; k" := (bind m (fun _ => k))
(at level 100, right associativity) : py_scope.
Open Scope py_scope.

(** [raise e] *)
Definition raise {W A} (e : exn) : M W A := fun s => (Raise e, s).

(** [sys.exit(code)] *)
Definition sys_exit {W A} (code : Z) : M W A := fun s => (Exit code, s).

(** [try: body  except Exception as e: handler(e)] *)
Definition try_except {W A} (body : M W A) (handler : exn -> M W A) : M W A :=
fun s =>
  match body s with
  | (Raise e, s') => handler e s'
  | r => r
  end.

(** [print(line)] *)
Definition print {W} (line : string) : M W unit :=
fun s => (Ret tt, mkState (world s) (out s ++ line ++ nl) (spawned s)).

(** The exit status the operating system sees: the argument of [sys.exit],
  1 after an exception nobody handled, 0 when the script runs off its end. *)
Definition exit_status {A W} (r : result A * state W) : Z :=
match fst r with
| Ret _ => 0
| Exit c => c
| Raise _ => 1
end.

(** ** The script *)

Section AutoInit.

Context {World : Type}.
Variable H : Host World.
Variable P : Process.

Local Abbreviation Py := (M World).

(** *** Library calls *)

(** [p.exists()] *)
Definition path_exists (p : string) : Py bool :=
  fun s =>
    match lookup H (world s) p with
    | Some _ => (Ret true, s)
    | None => (Ret false, s)
    end.

(** [with open(p) as f: for line in f] : the lines of a text file opened
    for reading. *)
Definition open_lines (p : string) : Py (list string) :=
  fun s =>
    match lookup H (world s) p with
    | Some (File t) => (Ret (readlines t), s)
    | Some Dir => (Raise (OSError "IsADirectoryError" p), s)
    | None => (Raise (OSError "FileNotFoundError" p), s)
    end.

(** [subprocess.run(args, capture_output=True, text=..., timeout=...)] *)
Definition subprocess_run (c : Call) : Py CompletedProcess :=
  fun s =>
    let (o, w) := spawn H c (world s) in
    let s' := mkState w (out s) (spawned s ++ [c]) in
    match o with
    | Completed r => (Ret r, s')
    | Failed e => (Raise e, s')
    end.

(** [subprocess.check_call(args, timeout=...)], with or without the keyword
    [capture_output=True].  [check_call] hands its keywords to [Popen],
    which has no [capture_output] parameter: with the keyword the call
    raises [TypeError] before any child is started.  Without it the child
    inherits standard output, and a non-zero status raises
    [CalledProcessError]. *)
Definition subprocess_check_call
           (argv : list string) (kw_capture_output : bool) (tmo : Z) : Py Z :=
  if kw_capture_output then
    raise (TypeError "Popen.__init__() got an unexpected keyword argument 'capture_output'")
  else
    fun s =>
      let c := mkCall argv false false tmo in
      let (o, w) := spawn H c (world s) in
      match o with
      | Completed r =>
          let s' := mkState w (out s ++ stdout r) (spawned s ++ [c]) in
          if returncode r =? 0 then (Ret 0, s')
          else (Raise (CalledProcessError (returncode r) argv), s')
      | Failed e => (Raise e, mkState w (out s) (spawned s ++ [c]))
      end.

(** [l[1]] *)
Definition item1 (l : list string) : Py string :=
  match nth_error l 1 with
  | Some x => ret x
  | None => raise (IndexError "list index out of range")
  end.

(** *** Directories *)

Definition get_skill_dir : string :=
  path_parent H (path_parent H (script_file P)).

Definition get_user_cwd : string :=
  match sys_argv P with
  | _ :: a :: _ => path_resolve H a
  | _ => os_getcwd P
  end.

Definition get_venv_path : string :=
  path_join H get_skill_dir ".venv".

Definition get_venv_python (venv_path : string) : string :=
  if (sys_platform P =? "win32")%string
  then path_join H (path_join H venv_path "Scripts") "python.exe"
  else path_join H (path_join H venv_path "bin") "python".

(** *** Interpreter search *)

Definition candidates : list string :=
  [ "python3.12"; "python3.11"; "python3.10"; "python3";
    "/usr/bin/python3.12"; "/usr/bin/python3.11"; "/usr/bin/python3.10";
    "/usr/local/bin/python3.12"; "/usr/local/bin/python3.11";
    "/usr/local/bin/python3.10";
    "/opt/homebrew/bin/python3.12"; "/opt/homebrew/bin/python3.11";
    "/opt/homebrew/bin/python3.10" ].

(** [any(f"Python 3.{minor}" in version_output for minor in [10, 11, 12])] *)
Definition version_accepted (version_output : string) : bool :=
  existsb (fun minor => contains ("Python 3." ++ str_of_nat minor) version_output)
          [10; 11; 12]%nat.

Definition version_call (candidate : string) : Call :=
  mkCall [candidate; "--version"] true true 5.

(** The body of the loop for one candidate: [Some] is the [return], [None]
    falls through to the next candidate. *)
Definition try_candidate (candidate : string) : Py (option (string * string)) :=
  try_except
    (result <- subprocess_run (version_call candidate) ;;
     if returncode result =? 0 then
       let version_output := strip (stdout result) in
       if version_accepted version_output
       then ret (Some (candidate, version_output))
       else ret None
     else ret None)
    (fun _ => ret None).

(** The loop of [find_compatible_python] over a candidate list. *)
Fixpoint find_compatible_python_in (cs : list string)
  : Py (option string * option string) :=
  match cs with
  | [] => ret (None, None)
  | candidate :: rest =>
      r <- try_candidate candidate ;;
      match r with
      | Some (p, v) => ret (Some p, Some v)
      | None => find_compatible_python_in rest
      end
  end.

Definition find_compatible_python : Py (option string * option string) :=
  find_compatible_python_in candidates.

(** *** Steps *)

(** [not python_exe] for a value that is [None] or a string. *)
Definition falsy (x : option string) : bool :=
  match x with
  | None => true
  | Some s => (s =? "")%string
  end.

(** [f"{x}"] for a value that is [None] or a string. *)
Definition fmt (x : option string) : string :=
  match x with
  | None => "None"
  | Some s => s
  end.

Definition venv_call (python_exe venv_path : string) : list string :=
  [python_exe; "-m"; "venv"; venv_path].

Definition ensure_venv : Py string :=
  let venv_path := get_venv_path in
  e <- path_exists venv_path ;;
  if e then ret (get_venv_python venv_path) else
  print "Creating virtual environment..." ;;
  pv <- find_compatible_python ;;
  let (python_exe, version) := pv in
  if falsy python_exe then
    print (nl ++ "ERROR: Python 3.10, 3.11, or 3.12 is required but not found.") ;;
    print (nl ++ "The carver-feeds-sdk requires Python 3.10+.") ;;
    print (nl ++ "Please install a compatible Python version:") ;;
    print "  - macOS: brew install python@3.12" ;;
    print "  - Ubuntu: sudo apt install python3.12" ;;
    print "  - Windows: Download from python.org" ;;
    sys_exit 1
  else
    print ("✓ Found compatible Python: " ++ fmt version) ;;
    try_except
      (subprocess_check_call (venv_call (fmt python_exe) venv_path) false 60 ;;
       print "✓ Virtual environment created" ;;
       ret (get_venv_python venv_path))
      (fun e =>
         print ("ERROR: Failed to create virtual environment: " ++ describe H e) ;;
         sys_exit 1).

Definition sdk_probe_call (python_exe : string) : Call :=
  mkCall [python_exe; "-c"; "import carver_feeds"] true false 5.

Definition is_sdk_installed (python_exe : string) : Py bool :=
  try_except
    (result <- subprocess_run (sdk_probe_call python_exe) ;;
     ret (returncode result =? 0))
    (fun _ => ret false).

Definition upgrade_pip (python_exe : string) : Py bool :=
  print "Upgrading pip..." ;;
  try_except
    (subprocess_check_call [python_exe; "-m"; "pip"; "install"; "--upgrade"; "pip"]
                           true 60 ;;
     print "✓ pip upgraded" ;;
     ret true)
    (fun e =>
       print ("WARNING: Could not upgrade pip: " ++ describe H e) ;;
       ret false).

Definition sdk_install_call (python_exe : string) : list string :=
  [python_exe; "-m"; "pip"; "install"; "carver-feeds-sdk"].

Definition install_sdk (python_exe : string) : Py bool :=
  print "Installing carver-feeds-sdk..." ;;
  try_except
    (subprocess_check_call (sdk_install_call python_exe) false 120 ;;
     print "✓ SDK installed" ;;
     ret true)
    (fun e =>
       print ("ERROR: Failed to install SDK: " ++ describe H e) ;;
       sys_exit 1).

(** *** Credential file *)

Definition placeholder : string := "your_api_key_here".

(** The loop of [check_env_file] over the lines of the file. *)
Fixpoint scan_lines (lines : list string) : Py (bool * option string) :=
  match lines with
  | [] => ret (false, None)
  | line :: rest =>
      if startswith (strip line) "CARVER_API_KEY=" then
        v <- item1 (split1 "=" line) ;;
        let key := strip v in
        if negb (key =? "")%string && negb (key =? placeholder)%string
        then ret (true, Some key)
        else scan_lines rest
      else scan_lines rest
  end.

Definition check_env_file (cwd : string) : Py (bool * option string) :=
  let env_file := path_join H cwd ".env" in
  e <- path_exists env_file ;;
  if negb e then ret (false, None) else
  lines <- open_lines env_file ;;
  scan_lines lines.

Definition rule : string := repeat_char "=" 60.

Definition prompt_for_api_key {A} (cwd : string) : Py A :=
  print (nl ++ rule) ;;
  print "CARVER API KEY REQUIRED" ;;
  print rule ;;
  print (nl ++ "The Carver Feeds SDK requires an API key to function.") ;;
  print (nl ++ "To get your API key:") ;;
  print "1. Visit: https://app.carveragents.ai" ;;
  print "2. Sign in or create an account" ;;
  print "3. Copy your API key" ;;
  print (nl ++ "Please provide your Carver API key to continue.") ;;
  print (nl ++ "(The key will be saved to " ++ cwd ++ "/.env)") ;;
  print rule ;;
  print (nl ++ "API_KEY_REQUIRED") ;;
  print ("CWD=" ++ cwd) ;;
  sys_exit 2.

(** *** End-to-end verification *)

(** The verification program: the formatted text of the script, with the
working directory spliced in. *)
Definition test_script (cwd : string) : string :=
String.concat nl
  [ "";
    "import os";
    "import sys";
    "from pathlib import Path";
    "from dotenv import load_dotenv";
    "";
    "# Load .env file from CWD";
    "env_file = Path(r" ++ dq ++ cwd ++ dq ++ ") / " ++ dq ++ ".env" ++ dq;
    "if not env_file.exists():";
    "    print(" ++ dq ++ "ERROR: .env file not found in CWD" ++ dq ++ ")";
    "    sys.exit(1)";
    "";
    "load_dotenv(env_file)";
    "";
    "# Test connection";
    "from carver_feeds import get_client";
    "client = get_client()";
    "topics = client.list_topics()";
    "print(f" ++ dq ++ "SUCCESS: Connected! Found {len(topics)} topics" ++ dq ++ ")";
    "" ].

Definition verify_call (python_exe cwd : string) : Call :=
mkCall [python_exe; "-c"; test_script cwd] true true 30.

Definition test_sdk_connection (python_exe cwd : string) : Py bool :=
try_except
  (result <- subprocess_run (verify_call python_exe cwd) ;;
   if (returncode result =? 0) && contains "SUCCESS" (stdout result) then
     print "✓ SDK connection verified" ;;
     ret true
   else
     print "ERROR: SDK connection failed" ;;
     (if negb (stderr result =? "")%string
      then print ("  " ++ stderr result) else ret tt) ;;
     (if negb (stdout result =? "")%string && contains "ERROR" (stdout result)
      then print ("  " ++ stdout result) else ret tt) ;;
     ret false)
  (fun e =>
     print ("ERROR: Failed to test SDK connection: " ++ describe H e) ;;
     ret false).

Definition dotenv_probe_call (python_exe : string) : Call :=
mkCall [python_exe; "-c"; "import dotenv"] true false 5.

Definition dotenv_install_call (python_exe : string) : list string :=
[python_exe; "-m"; "pip"; "install"; "-q"; "python-dotenv"].

Definition ensure_python_dotenv (python_exe : string) : Py bool :=
try_except
  (result <- subprocess_run (dotenv_probe_call python_exe) ;;
   if returncode result =? 0 then ret true else
   subprocess_check_call (dotenv_install_call python_exe) false 60 ;;
   ret true)
  (fun _ => ret false).

(** *** The provisioning sequence *)

Definition main : Py unit :=
let user_cwd := get_user_cwd in
let skill_dir := get_skill_dir in
print ("Skill directory: " ++ skill_dir) ;;
print ("Working directory: " ++ user_cwd) ;;
print "" ;;
(* Step 1 *)
python_exe <- ensure_venv ;;
(* Step 2 *)
upgrade_pip python_exe ;;
(* Step 3 *)
installed <- is_sdk_installed python_exe ;;
(if negb installed then install_sdk python_exe ;; ret tt else ret tt) ;;
(* Step 4 *)
ensure_python_dotenv python_exe ;;
(* Step 5 *)
hk <- check_env_file user_cwd ;;
let (has_key, api_key) := hk in
(if negb has_key then prompt_for_api_key user_cwd else ret tt) ;;
(* Step 6 *)
ok <- test_sdk_connection python_exe user_cwd ;;
(if negb ok then
   print (nl ++ "ERROR: SDK is installed but cannot connect to API.") ;;
   print "Please check your API key and network connection." ;;
   print ("Looking for .env in: " ++ user_cwd) ;;
   sys_exit 1
 else ret tt) ;;
print (nl ++ "VENV_PYTHON=" ++ python_exe) ;;
print ("CWD=" ++ user_cwd) ;;
sys_exit 0.

End AutoInit.

(** ** Reading aids for the statements *)

(** [needle] occurs in [hay]. *)
Definition occurs_in (needle hay : string) : Prop :=
exists a b, hay = a ++ needle ++ b.

(** [s] ends with [e]. *)
Definition ends_with (e s : string) : Prop :=
exists a, s = a ++ e.

(** [c] occurs in [s]. *)
Fixpoint has_char (c : ascii) (s : string) : bool :=
match s with
| EmptyString => false
| String a t => Ascii.eqb a c || has_char c t
end.

(** ** The credential, in the words of the specification *)

(** The key a single line provides: the line, stripped, starts with
[CARVER_API_KEY=], and the text after the first [=] of the line, trimmed, is
neither empty nor the placeholder. *)
Definition key_of_line (line : string) : option string :=
if startswith (strip line) "CARVER_API_KEY=" then
  match cut "=" line with
  | Some (_, v) =>
      let key := strip v in
      if (key =? "")%string || (key =? placeholder)%string then None else Some key
  | None => None
  end
else None.

(** The key of the first line, in file order, that provides one. *)
Fixpoint first_key (lines : list string) : option string :=
match lines with
| [] => None
| line :: rest =>
    match key_of_line line with
    | Some k => Some k
    | None => first_key rest
    end
end.

(** A credential file that holds the placeholder line and nothing else, with
or without the final line feed. *)
Definition placeholder_only (t : string) : Prop :=
t = "CARVER_API_KEY=your_api_key_here" \/
t = "CARVER_API_KEY=your_api_key_here" ++ nl.

(** What [check_env_file] hands back for a found or missing key. *)
Definition key_result (k : option string) : bool * option string :=
match k with
| Some key => (true, Some key)
| None => (false, None)
end.

(** ** Interpreter probing, as a relation on the machine *)

(** The version line a finished version query is accepted with. *)
Definition acceptable (o : Outcome) : option string :=
match o with
| Completed r =>
    if (returncode r =? 0) && version_accepted (strip (stdout r))
    then Some (strip (stdout r)) else None
| Failed _ => None
end.

(** [Rejected H cs w w']: probed in order from machine state [w], no
candidate of [cs] is acceptable, and the probes leave the machine in [w']. *)
Inductive Rejected {World} (H : Host World) : list string -> World -> World -> Prop :=
| Rejected_nil w : Rejected H [] w w
| Rejected_cons c cs w o w1 w2 :
    spawn H (version_call c) w = (o, w1) ->
    acceptable o = None ->
    Rejected H cs w1 w2 ->
    Rejected H (c :: cs) w w2.

(** ** Children and the machine *)

(** The machine after the children [cs] ran in order. *)
Definition replay {World} (H : Host World) (cs : list Call) (w : World) : World :=
fold_left (fun w c => snd (spawn H c w)) cs w.

(** [only_children H s s']: from [s] to [s'] the machine changed through
the children started in between and through nothing else. *)
Definition only_children {World} (H : Host World) (s s' : state World) : Prop :=
exists new : list Call,
  spawned s' = (spawned s ++ new)%list /\ world s' = replay H new (world s).

(** A computation that changes the machine through its children only. *)
Definition tracked {World A} (H : Host World) (m : M World A) : Prop :=
forall s, only_children H s (snd (m s)).

(** A child that failed: the call raised (a timeout included) or the status
is not zero. *)
Definition failed_child (o : Outcome) : bool :=
match o with
| Completed r => negb (returncode r =? 0)
| Failed _ => true
end.

(** Kinds of child. *)
Definition is_version_query (c : Call) : bool :=
match args c with
| [_; a] => (a =? "--version")%string
| _ => false
end.

Definition is_venv_creation (c : Call) : bool :=
match args c with
| [_; a; b; _] => (a =? "-m")%string && (b =? "venv")%string
| _ => false
end.

Definition is_sdk_install (c : Call) : bool :=
match args c with
| [_; a; b; d; e] =>
    (a =? "-m")%string && (b =? "pip")%string && (d =? "install")%string
    && (e =? "carver-feeds-sdk")%string
| _ => false
end.

(** Neither an interpreter query, nor the making of an environment, nor an
installation of the SDK. *)
Definition no_setup_work (c : Call) : bool :=
negb (is_version_query c) && negb (is_venv_creation c) && negb (is_sdk_install c).

(** ** The sequence of [main], cut at its steps *)

Section Steps.

Context {World : Type}.
Variable H : Host World.
Variable P : Process.

(** [main] from step 6 on. *)
Definition from_verify (python_exe user_cwd : string) : M World unit :=
ok <- test_sdk_connection H python_exe user_cwd ;;
(if negb ok then
   print (nl ++ "ERROR: SDK is installed but cannot connect to API.") ;;
   print "Please check your API key and network connection." ;;
   print ("Looking for .env in: " ++ user_cwd) ;;
   sys_exit 1
 else ret tt) ;;
print (nl ++ "VENV_PYTHON=" ++ python_exe) ;;
print ("CWD=" ++ user_cwd) ;;
sys_exit 0.

(** [main] from step 5 on. *)
Definition from_credential (python_exe user_cwd : string) : M World unit :=
hk <- check_env_file H user_cwd ;;
let (has_key, api_key) := hk in
(if negb has_key then prompt_for_api_key user_cwd else ret tt) ;;
from_verify python_exe user_cwd.

(** [main] from step 4 on. *)
Definition from_dotenv (python_exe user_cwd : string) : M World unit :=
ensure_python_dotenv H python_exe ;;
from_credential python_exe user_cwd.

(** [main] from step 3 on. *)
Definition from_sdk (python_exe user_cwd : string) : M World unit :=
installed <- is_sdk_installed H python_exe ;;
(if negb installed then install_sdk H python_exe ;; ret tt else ret tt) ;;
from_dotenv python_exe user_cwd.

(** [main] from step 2 on. *)
Definition from_pip (python_exe user_cwd : string) : M World unit :=
upgrade_pip H python_exe ;;
from_sdk python_exe user_cwd.

(** [main] up to and including step 4: the announcement, the environment,
pip, the SDK and the helper; the value is the interpreter of the
environment. *)
Definition provision : M World string :=
print ("Skill directory: " ++ get_skill_dir H P) ;;
print ("Working directory: " ++ get_user_cwd H P) ;;
print "" ;;
python_exe <- ensure_venv H P ;;
upgrade_pip H python_exe ;;
installed <- is_sdk_installed H python_exe ;;
(if negb installed then install_sdk H python_exe ;; ret tt else ret tt) ;;
ensure_python_dotenv H python_exe ;;
ret python_exe.

(** The state once [main] has announced its two directories. *)
Definition announced (s : state World) : state World :=
snd ((print ("Skill directory: " ++ get_skill_dir H P) ;;
      print ("Working directory: " ++ get_user_cwd H P) ;;
      print "") s).

(** The verdict of [test_sdk_connection] on what became of its child. *)
Definition verified (o : Outcome) : bool :=
match o with
| Completed r => (returncode r =? 0) && contains "SUCCESS" (stdout r)
| Failed _ => false
end.

(** What [test_sdk_connection] writes about a child that did not verify. *)
Definition diagnostics (o : Outcome) : string :=
match o with
| Completed r =>
    "ERROR: SDK connection failed" ++ nl
    ++ (if (stderr r =? "")%string then "" else "  " ++ stderr r ++ nl)
    ++ (if negb (stdout r =? "")%string && contains "ERROR" (stdout r)
        then "  " ++ stdout r ++ nl else "")
| Failed e => "ERROR: Failed to test SDK connection: " ++ describe H e ++ nl
end.

(** What [main] adds after a failed verification. *)
Definition failure_lines (user_cwd : string) : string :=
nl ++ "ERROR: SDK is installed but cannot connect to API." ++ nl
++ "Please check your API key and network connection." ++ nl
++ "Looking for .env in: " ++ user_cwd ++ nl.

(** The two structured lines of a successful run, after an empty line. *)
Definition success_lines (python_exe user_cwd : string) : string :=
nl ++ "VENV_PYTHON=" ++ python_exe ++ nl ++ "CWD=" ++ user_cwd ++ nl.

(** The two structured lines of a run that needs a credential. *)
Definition need_credential_lines (user_cwd : string) : string :=
nl ++ "API_KEY_REQUIRED" ++ nl ++ "CWD=" ++ user_cwd ++ nl.

(** The text [prompt_for_api_key] writes. *)
Definition prompt_text (cwd : string) : string :=
String.concat nl
  [ nl ++ rule;
    "CARVER API KEY REQUIRED";
    rule;
    nl ++ "The Carver Feeds SDK requires an API key to function.";
    nl ++ "To get your API key:";
    "1. Visit: https://app.carveragents.ai";
    "2. Sign in or create an account";
    "3. Copy your API key";
    nl ++ "Please provide your Carver API key to continue.";
    nl ++ "(The key will be saved to " ++ cwd ++ "/.env)";
    rule;
    nl ++ "API_KEY_REQUIRED";
    "CWD=" ++ cwd;
    "" ].

End Steps.

(** ** A sample machine

A small concrete host on which the script can be run: files in an
association list, the interpreters on the search path with their version
lines, the packages importable in the environment, and what the
verification program does once it has its imports and the credential
file. *)

Module Sample.

Record World : Type := mkWorld {
  files : list (string * node);
  interpreters : list (string * string);
  packages : list string;
  index_reachable : bool;
  verification : Outcome
}.

Fixpoint assoc {A} (k : string) (l : list (string * A)) : option A :=
match l with
| [] => None
| (k', v) :: rest => if (k =? k')%string then Some v else assoc k rest
end.

Definition has (k : string) (l : list string) : bool :=
existsb (String.eqb k) l.

Definition done (rc : Z) (o e : string) : Outcome :=
Completed (mkCompleted rc o e).

(** [pip install]: adds the module when the package index can be reached. *)
Definition pip_install (module : string) (w : World) : Outcome * World :=
if index_reachable w
then (done 0 "" "",
      mkWorld (files w) (interpreters w) (module :: packages w)
              (index_reachable w) (verification w))
else (done 1 "" "ERROR: No matching distribution found", w).

(** Children: an interpreter answers [--version]; [-m venv d] makes the
directory [d]; [-m pip install p] adds the package; [-c "import m"]
succeeds for an installed module; any other [-c] program is the
verification program. *)
Definition sample_spawn (cwd : string) (c : Call) (w : World) : Outcome * World :=
match args c with
| [exe; "--version"] =>
    match assoc exe (interpreters w) with
    | Some v => (done 0 (v ++ nl) "", w)
    | None => (Failed (OSError "FileNotFoundError" exe), w)
    end
| [exe; "-m"; "venv"; d] =>
    (done 0 "" "",
     mkWorld ((d, Dir) :: files w) (interpreters w) (packages w)
             (index_reachable w) (verification w))
| [exe; "-m"; "pip"; "install"; "carver-feeds-sdk"] => pip_install "carver_feeds" w
| [exe; "-m"; "pip"; "install"; "-q"; "python-dotenv"] => pip_install "dotenv" w
| [exe; "-c"; "import carver_feeds"] =>
    (done (if has "carver_feeds" (packages w) then 0 else 1) "" "", w)
| [exe; "-c"; "import dotenv"] =>
    (done (if has "dotenv" (packages w) then 0 else 1) "" "", w)
| [exe; "-c"; _] =>
    if negb (has "dotenv" (packages w) && has "carver_feeds" (packages w))
    then (done 1 "" "ModuleNotFoundError", w)
    else match assoc (cwd ++ "/.env") (files w) with
         | None => (done 1 "ERROR: .env file not found in CWD" "", w)
         | Some _ => (verification w, w)
         end
| _ => (Failed (OSError "FileNotFoundError" ""), w)
end.

Definition host : Host World :=
mkHost World
  (fun w p => assoc p (files w))
  (sample_spawn "/work")
  (fun p name => p ++ "/" ++ name)
  (fun p => p)
  (fun p => p)
  (fun e => match e with
            | TypeError m => m
            | IndexError m => m
            | CalledProcessError rc _ => "non-zero exit status"
            | TimeoutExpired _ _ => "timed out"
            | OSError n f => n
            end).

Definition proc : Process :=
mkProcess ["auto_init.py"; "/work"] "linux" "/skill" "/home".

Definition start (w : World) : state World := mkState w "" [].

Definition connected : Outcome :=
done 0 ("SUCCESS: Connected! Found 3 topics" ++ nl) "".

(** An environment with both packages. *)
Definition installed (env : list (string * node)) (o : Outcome) : World :=
mkWorld (("/skill/.venv", Dir) :: env)
        [("python3.11", "Python 3.11.2")] ["carver_feeds"; "dotenv"] true o.

(** Nothing installed but an interpreter, no credential file. *)
Definition fresh : World :=
mkWorld [] [("python3.11", "Python 3.11.2")] [] true connected.

(** No interpreter at all. *)
Definition bare : World :=
mkWorld [] [] [] true connected.

(** An environment without the SDK, and no way to the package index. *)
Definition offline : World :=
mkWorld [("/skill/.venv", Dir)] [("python3.11", "Python 3.11.2")] [] false connected.

(** Everything installed, a valid credential file, the service answering. *)
Definition ready : World :=
installed [("/work/.env", File ("CARVER_API_KEY=abc123" ++ nl))] connected.

(** As [ready], with the placeholder left in the credential file. *)
Definition unconfigured : World :=
installed [("/work/.env", File "CARVER_API_KEY=your_api_key_here")] connected.

(** As [ready], without a credential file. *)
Definition keyless : World :=
installed [] connected.

(** As [ready], but the verification program ends with status 1, a line on
standard output and nothing on standard error. *)
Definition refused : World :=
installed [("/work/.env", File ("CARVER_API_KEY=abc123" ++ nl))]
          (done 1 "connection refused" "").

(** A credential file with a comment, the placeholder, an empty value, and
then a key that contains [=] and is surrounded by blanks. *)
Definition layered : World :=
installed [("/work/.env",
            File ("# credentials" ++ nl
                  ++ "CARVER_API_KEY=your_api_key_here" ++ nl
                  ++ "CARVER_API_KEY=" ++ nl
                  ++ "  CARVER_API_KEY= ab=cd== " ++ nl
                  ++ "CARVER_API_KEY=later" ++ nl))] connected.

(** An interpreter that reports a minor version of 100. *)
Definition futuristic : World :=
mkWorld [] [("python3", "Python 3.100.0")] [] true connected.

End Sample.

(** ** The children of a run *)

(** [children_in Q R m]: every child [m] starts satisfies [Q], and a value
[m] returns satisfies [R]. *)
Definition children_in {World A} (Q : Call -> Prop) (R : A -> Prop)
           (m : M World A) : Prop :=
forall s,
  (exists new : list Call,
      spawned (snd (m s)) = (spawned s ++ new)%list /\ Forall Q new)
  /\ (forall a, fst (m s) = Ret a -> R a).

(** The children [main] can start, for the host and process it runs on: a
version query of a candidate, the making of the environment by a candidate,
and, run by the interpreter of the environment, the import probes, the two
installations and the verification. *)
Definition main_child {World} (H : Host World) (P : Process) (c : Call) : Prop :=
let python_exe := get_venv_python H P (get_venv_path H P) in
(exists candidate, In candidate candidates /\ c = version_call candidate)
\/ (exists candidate,
       In candidate candidates /\
       c = mkCall (venv_call candidate (get_venv_path H P)) false false 60)
\/ c = sdk_probe_call python_exe
\/ c = mkCall (sdk_install_call python_exe) false false 120
\/ c = dotenv_probe_call python_exe
\/ c = mkCall (dotenv_install_call python_exe) false false 60
\/ c = verify_call python_exe (get_user_cwd H P).

(** The text [ensure_venv] writes when no interpreter is found. *)
Definition remediation : string :=
String.concat nl
  [ nl ++ "ERROR: Python 3.10, 3.11, or 3.12 is required but not found.";
    nl ++ "The carver-feeds-sdk requires Python 3.10+.";
    nl ++ "Please install a compatible Python version:";
    "  - macOS: brew install python@3.12";
    "  - Ubuntu: sudo apt install python3.12";
    "  - Windows: Download from python.org";
    "" ].

(** A string without blanks at either end. *)
Definition trimmed (s : string) : Prop := strip s = s.

(** ** The manual setup script ([scripts/setup_environment.py])

The script a user runs by hand.  It works in the interpreter that runs it:
it makes an environment with the [venv] module, installs the SDK with the
pip of the running interpreter, looks for the key in the process environment
and in the credential file of the current directory, and connects through the
SDK in its own process. *)

Module Setup.

(** What [sys] tells about the running interpreter. *)
Record Sys : Type := mkSys {
  real_prefix : option string;   (* [sys.real_prefix], if [sys] has one *)
  base_prefix : option string;   (* [sys.base_prefix], if [sys] has one *)
  prefix : string;               (* [sys.prefix] *)
  executable : string            (* [sys.executable] *)
}.

(** What becomes of [get_client().list_topics()] and of the import before
it: the topics, an [ImportError], or any other exception. *)
Inductive Connection : Type :=
| Topics (n : nat)
| ImportFailed
| Broken (e : exn).

(** The library calls of this script that the other one does not use. *)
Record Library (World : Type) : Type := mkLibrary {
  getenv : World -> string -> option string;              (* [os.getenv] *)
  venv_create : string -> World -> option exn * World;    (* [venv.create] *)
  (* a child with both pipes and no time allowance *)
  check_call_piped : list string -> World -> Outcome * World;
  list_topics : World -> Connection * World;
  path_str : string -> string                             (* [str(Path(p))] *)
}.

Arguments getenv {World} _ _ _.
Arguments venv_create {World} _ _ _.
Arguments check_call_piped {World} _ _ _.
Arguments list_topics {World} _ _.
Arguments path_str {World} _ _.

Section Script.

Context {World : Type}.
Variable H : Host World.
Variable L : Library World.
Variable P : Process.
Variable Y : Sys.

Local Abbreviation Py := (M World).

(** *** Library calls *)

(** [os.getenv(name)] *)
Definition os_getenv (name : string) : Py (option string) :=
fun s => (Ret (getenv L (world s) name), s).

(** [venv.create(path, with_pip=True)] *)
Definition venv_create_with_pip (path : string) : Py unit :=
fun s =>
  let (r, w) := venv_create L path (world s) in
  let s' := mkState w (out s) (spawned s) in
  match r with
  | None => (Ret tt, s')
  | Some e => (Raise e, s')
  end.

(** [subprocess.check_call(argv, stdout=PIPE, stderr=PIPE)]: the output of
the child goes into pipes nobody reads; a non-zero status raises
[CalledProcessError]. *)
Definition subprocess_check_call_piped (argv : list string) : Py Z :=
fun s =>
  let (o, w) := check_call_piped L argv (world s) in
  let s' := mkState w (out s) (spawned s) in
  match o with
  | Completed r =>
      if returncode r =? 0 then (Ret 0, s')
      else (Raise (CalledProcessError (returncode r) argv), s')
  | Failed e => (Raise e, s')
  end.

(** [try: body  except subprocess.CalledProcessError as e: handler(e)] *)
Definition try_except_called_process_error {A}
           (body : Py A) (handler : exn -> Py A) : Py A :=
fun s =>
  match body s with
  | (Raise (CalledProcessError rc cmd), s') =>
      handler (CalledProcessError rc cmd) s'
  | r => r
  end.

(** *** The script *)

Definition is_venv : bool :=
match real_prefix Y with
| Some _ => true
| None =>
    match base_prefix Y with
    | Some b => negb (b =? prefix Y)%string
    | None => false
    end
end.

Definition create_venv (venv_path : string) : Py bool :=
print ("📁 Creating virtual environment at " ++ venv_path ++ "...") ;;
try_except
  (venv_create_with_pip venv_path ;;
   print "✅ Virtual environment created successfully" ;;
   ret true)
  (fun e =>
     print ("❌ Failed to create virtual environment: " ++ describe H e) ;;
     ret false).

Definition setup_venv : Py (option string * bool) :=
if is_venv then
  print "✅ Already running in a virtual environment" ;;
  ret (Some (executable Y), true)
else
  print "⚠️  Not in a virtual environment" ;;
  let venv_path := path_join H (os_getcwd P) ".venv" in
  e <- path_exists H venv_path ;;
  created <- (if e then
                print ("✅ Found existing virtual environment at " ++ venv_path) ;;
                ret true
              else create_venv venv_path) ;;
  if negb created then ret (None, false) else
  let venv_python := get_venv_python H P venv_path in
  e' <- path_exists H venv_python ;;
  if negb e' then
    print ("❌ Virtual environment Python not found at " ++ venv_python) ;;
    ret (None, false)
  else
    print (nl ++ "📝 To activate the virtual environment:") ;;
    (if (sys_platform P =? "win32")%string
     then print ("   " ++ venv_path ++ "\Scripts\activate")
     else print ("   source " ++ venv_path ++ "/bin/activate")) ;;
    print (nl ++ "⚠️  Please activate the virtual environment and run this script again.") ;;
    ret (Some venv_python, false).

Definition install_call : list string :=
[executable Y; "-m"; "pip"; "install"; "carver-feeds-sdk"].

Definition install_sdk : Py bool :=
print "📦 Installing carver-feeds-sdk from PyPI..." ;;
try_except_called_process_error
  (subprocess_check_call_piped install_call ;;
   print "✅ SDK installed successfully" ;;
   ret true)
  (fun e =>
     print ("❌ Failed to install SDK: " ++ describe H e) ;;
     ret false).

(** The loop of [check_api_key] over the lines of the file: [true] is the
[return True] inside the loop. *)
Fixpoint key_line_found (lines : list string) : bool :=
match lines with
| [] => false
| line :: rest =>
    if startswith (strip line) "CARVER_API_KEY=" then true
    else key_line_found rest
end.

Definition key_not_found : Py bool :=
print "❌ CARVER_API_KEY not found" ;;
print (nl ++ "📝 To set up your API key:") ;;
print "1. Create a .env file in your working directory" ;;
print "2. Add this line: CARVER_API_KEY=your_api_key_here" ;;
print "3. Get your API key from: https://app.carveragents.ai" ;;
ret false.

Definition check_api_key : Py bool :=
api_key <- os_getenv "CARVER_API_KEY" ;;
if negb (falsy api_key) then
  print "✅ CARVER_API_KEY found in environment" ;;
  ret true
else
  let env_file := path_join H (os_getcwd P) ".env" in
  e <- path_exists H env_file ;;
  if e then
    lines <- open_lines H env_file ;;
    if key_line_found lines then
      print "✅ CARVER_API_KEY found in .env file" ;;
      ret true
    else key_not_found
  else key_not_found.

Definition test_connection : Py bool :=
fun s =>
  let (c, w) := list_topics L (world s) in
  let s' := mkState w (out s) (spawned s) in
  match c with
  | Topics n =>
      (print ("✅ Connected successfully! Found " ++ str_of_nat n
              ++ " topics available") ;;
       ret true) s'
  | ImportFailed =>
      (print "❌ SDK not installed. Run this script again to install." ;;
       ret false) s'
  | Broken e =>
      (print ("❌ Connection failed: " ++ describe H e) ;;
       print (nl ++ "📝 Troubleshooting:") ;;
       print "- Verify your API key is correct" ;;
       print "- Check your internet connection" ;;
       print "- Visit https://app.carveragents.ai/api-docs/ for API status" ;;
       ret false) s'
  end.

Definition main : Py unit :=
print ("🚀 Carver Feeds SDK - Environment Setup" ++ nl) ;;
print rule ;;
print (nl ++ "🔍 Step 1: Checking virtual environment...") ;;
pv <- setup_venv ;;
let (python_exe, in_venv) := pv in
(if negb in_venv then sys_exit 1 else ret tt) ;;
print (nl ++ "📦 Step 2: Installing SDK...") ;;
sdk_installed <- install_sdk ;;
(if negb sdk_installed then
   print (nl ++ "❌ Setup failed: Could not install SDK") ;;
   sys_exit 1
 else ret tt) ;;
print (nl ++ "🔑 Step 3: Checking API key...") ;;
has_api_key <- check_api_key ;;
(if negb has_api_key then
   print (nl ++ "⚠️  Setup incomplete: API key not configured") ;;
   sys_exit 1
 else ret tt) ;;
print (nl ++ "🔌 Step 4: Testing API connection...") ;;
connected <- test_connection ;;
(if negb connected then
   print (nl ++ "❌ Setup failed: Could not connect to API") ;;
   sys_exit 1
 else ret tt) ;;
print (nl ++ rule) ;;
print "✅ Environment setup complete!" ;;
print (nl ++ "📚 Next steps:") ;;
print "- Use 'from carver_feeds import create_query_engine' to start querying" ;;
print "- See reference docs for API details and examples" ;;
print "- Run query templates for common use cases" ;;
if is_venv then
  let venv_path := path_str L (prefix Y) in
  print (nl ++ "💡 Your virtual environment is at: " ++ venv_path) ;;
  print "   Remember to activate it in future sessions!"
else ret tt.

(** *** The script cut at its steps *)

(** The state in which [setup_venv] starts. *)
Definition greeted (s : state World) : state World :=
snd ((print ("🚀 Carver Feeds SDK - Environment Setup" ++ nl) ;;
      print rule ;;
      print (nl ++ "🔍 Step 1: Checking virtual environment...")) s).

(** [main] after [setup_venv]. *)
Definition after_setup_venv (pv : option string * bool) : Py unit :=
let (python_exe, in_venv) := pv in
(if negb in_venv then sys_exit 1 else ret tt) ;;
print (nl ++ "📦 Step 2: Installing SDK...") ;;
sdk_installed <- install_sdk ;;
(if negb sdk_installed then
   print (nl ++ "❌ Setup failed: Could not install SDK") ;;
   sys_exit 1
 else ret tt) ;;
print (nl ++ "🔑 Step 3: Checking API key...") ;;
has_api_key <- check_api_key ;;
(if negb has_api_key then
   print (nl ++ "⚠️  Setup incomplete: API key not configured") ;;
   sys_exit 1
 else ret tt) ;;
print (nl ++ "🔌 Step 4: Testing API connection...") ;;
connected <- test_connection ;;
(if negb connected then
   print (nl ++ "❌ Setup failed: Could not connect to API") ;;
   sys_exit 1
 else ret tt) ;;
print (nl ++ rule) ;;
print "✅ Environment setup complete!" ;;
print (nl ++ "📚 Next steps:") ;;
print "- Use 'from carver_feeds import create_query_engine' to start querying" ;;
print "- See reference docs for API details and examples" ;;
print "- Run query templates for common use cases" ;;
if is_venv then
  let venv_path := path_str L (prefix Y) in
  print (nl ++ "💡 Your virtual environment is at: " ++ venv_path) ;;
  print "   Remember to activate it in future sessions!"
else ret tt.

End Script.

End Setup.

(** ** The manual setup, read off the machine *)

Section SetupOutcome.

Context {World : Type}.
Variable H : Host World.
Variable L : Setup.Library World.
Variable P : Process.
Variable Y : Setup.Sys.

(** What [Setup.install_sdk] makes of its child: only [CalledProcessError]
is caught. *)
Definition install_result (o : Outcome) : result bool :=
match o with
| Completed r => Ret (returncode r =? 0)
| Failed (CalledProcessError rc cmd) => Ret false
| Failed e => Raise e
end.

(** What [Setup.check_api_key] finds on a machine. *)
Definition key_check (w : World) : result bool :=
if negb (falsy (Setup.getenv L w "CARVER_API_KEY")) then Ret true
else
  match lookup H w (path_join H (os_getcwd P) ".env") with
  | Some (File t) => Ret (Setup.key_line_found (readlines t))
  | Some Dir =>
      Raise (OSError "IsADirectoryError" (path_join H (os_getcwd P) ".env"))
  | None => Ret false
  end.

(** The verdict of [Setup.test_connection]. *)
Definition connected (c : Setup.Connection) : bool :=
match c with
| Setup.Topics _ => true
| _ => false
end.

(** How a run inside a virtual environment ends, from the machine it starts
on: the installation, then the key, then the connection. *)
Definition outcome_in_venv (w0 : World) : result unit :=
let (o, w1) := Setup.check_call_piped L (Setup.install_call Y) w0 in
match install_result o with
| Ret true =>
    match key_check w1 with
    | Ret true =>
        if connected (fst (Setup.list_topics L w1)) then Ret tt else Exit 1
    | Ret false => Exit 1
    | Exit c => Exit c
    | Raise e => Raise e
    end
| Ret false => Exit 1
| Exit c => Exit c
| Raise e => Raise e
end.

End SetupOutcome.

(** ** A sample user session *)

Module SetupSample.

(** The library over the sample machine: the key of the process environment
and the fate of the connection are given; [venv.create] makes the directory
and its interpreter; the pip child installs the SDK when the index can be
reached. *)
Definition library (key : option string) (c : Setup.Connection)
  : Setup.Library Sample.World :=
Setup.mkLibrary Sample.World
  (fun _ name => if (name =? "CARVER_API_KEY")%string then key else None)
  (fun path w =>
     (None,
      Sample.mkWorld ((path, Dir) :: (path ++ "/bin/python", File "") :: Sample.files w)
                     (Sample.interpreters w) (Sample.packages w)
                     (Sample.index_reachable w) (Sample.verification w)))
  (fun argv w => Sample.pip_install "carver_feeds" w)
  (fun w => (c, w))
  (fun p => p).

(** As [library], but the pip child cannot be started at all. *)
Definition library_without_pip (key : option string) (c : Setup.Connection)
  : Setup.Library Sample.World :=
Setup.mkLibrary Sample.World
  (Setup.getenv (library key c))
  (Setup.venv_create (library key c))
  (fun argv w => (Failed (OSError "PermissionError" (hd EmptyString argv)), w))
  (Setup.list_topics (library key c))
  (Setup.path_str (library key c)).

Definition proc : Process :=
mkProcess ["setup_environment.py"] "linux" "/skill/scripts/setup_environment.py"
          "/work".

(** The service answers with three topics. *)
Definition three_topics : Setup.Connection := Setup.Topics 3.

(** Run by the interpreter of an activated environment. *)
Definition inside : Setup.Sys :=
Setup.mkSys None (Some "/usr") "/work/.venv" "/work/.venv/bin/python".



End SetupSample.

(** ** Line endings *)

(** The text with every line feed preceded by a carriage return, as an editor
on Windows saves it. *)
Fixpoint crlf (s : string) : string :=
match s with
| EmptyString => EmptyString
| String c t =>
    if Ascii.eqb c (ascii_of_nat 10)
    then String (ascii_of_nat 13) (String (ascii_of_nat 10) (crlf t))
    else String c (crlf t)
end.


(** * Properties *)

(** ** Strings *)

Lemma append_nil_r (s : string) : s ++ "" = s.
Proof. induction s; simpl; congruence. Qed.

Lemma append_assoc (a b c : string) : (a ++ b) ++ c = a ++ b ++ c.
Proof. induction a; simpl; congruence. Qed.

Lemma startswith_spec (s p : string) :
  startswith s p = true <-> exists b, s = p ++ b.
Proof.
  revert s; induction p as [|c p IH]; intros s; simpl.
  - split; [intros _; now exists s | reflexivity].
  - destruct s as [|d s]; [split; [discriminate | intros [b Hb]; discriminate]|].
    rewrite andb_true_iff, Ascii.eqb_eq, IH. split.
    + intros [-> [b ->]]. now exists b.
    + intros [b [= -> ->]]. split; [reflexivity | now exists b].
Qed.

Lemma contains_spec (needle hay : string) :
  contains needle hay = true <-> occurs_in needle hay.
Proof.
  unfold occurs_in. induction hay as [|c hay IH]; cbn [contains].
  - rewrite orb_false_r, startswith_spec. split.
    + intros [b Hb]. now exists "", b.
    + intros [a [b Hab]]. destruct a; simpl in Hab; [now exists b | discriminate].
  - rewrite orb_true_iff, IH, startswith_spec. split.
    + intros [[b Hb] | [a [b Hab]]].
      * now exists "", b.
      * exists (String c a), b. simpl. now rewrite Hab.
    + intros [a [b Hab]]. destruct a as [|d a]; simpl in Hab.
      * left. now exists b.
      * right. exists a, b. congruence.
Qed.

Lemma cut_has_char (sep : ascii) (s : string) :
  cut sep s = None <-> has_char sep s = false.
Proof.
  induction s as [|c s IH]; simpl; [tauto|].
  destruct (Ascii.eqb c sep); simpl; [split; discriminate|].
  destruct (cut sep s) as [[a b]|]; [|tauto].
  split; [discriminate|]. intros Hc. apply IH in Hc. discriminate.
Qed.

Lemma cut_spec (sep : ascii) (s a b : string) :
  cut sep s = Some (a, b) <->
  s = a ++ String sep b /\ has_char sep a = false.
Proof.
  revert a; induction s as [|c s IH]; intros a; simpl.
  - split; [discriminate|]. intros [Hs _]. destruct a; discriminate.
  - destruct (Ascii.eqb c sep) eqn:E.
    + apply Ascii.eqb_eq in E. subst c. split.
      * intros [= <- <-]. now split.
      * intros [Hs Ha]. destruct a as [|d a]; simpl in *.
        -- congruence.
        -- injection Hs as -> _. rewrite Ascii.eqb_refl in Ha. discriminate.
    + destruct (cut sep s) as [[a' b']|] eqn:Ec.
      * split.
        -- intros [= <- <-]. destruct (proj1 (IH a') eq_refl) as [-> Ha'].
           simpl. rewrite E. now split.
        -- intros [Hs Ha]. destruct a as [|d a]; simpl in *.
           ++ injection Hs as -> _. rewrite Ascii.eqb_refl in E. discriminate.
           ++ injection Hs as -> Hs. rewrite E in Ha. simpl in Ha.
              assert (Some (a', b') = Some (a, b)) as [= -> ->]
                  by (apply IH; now split).
              reflexivity.
      * split; [discriminate|]. intros [Hs Ha]. destruct a as [|d a]; simpl in *.
        -- injection Hs as -> _. rewrite Ascii.eqb_refl in E. discriminate.
        -- injection Hs as -> Hs. rewrite E in Ha. simpl in Ha.
           assert (None = Some (a, b)) by (apply IH; now split). discriminate.
Qed.

Lemma has_char_lstrip (c : ascii) (s : string) :
  has_char c (lstrip s) = true -> has_char c s = true.
Proof.
  induction s as [|a s IH]; simpl; [easy|].
  destruct (is_space a); [|easy].
  intros Hc. rewrite (IH Hc). apply orb_true_r.
Qed.

Lemma has_char_rstrip (c : ascii) (s : string) :
  has_char c (rstrip s) = true -> has_char c s = true.
Proof.
  induction s as [|a s IH]; simpl; [easy|].
  destruct (rstrip s) as [|b t].
  - destruct (is_space a); simpl; [discriminate|].
    rewrite orb_false_r. intros ->. reflexivity.
  - simpl in *. destruct (Ascii.eqb a c); [reflexivity|]. exact IH.
Qed.

Lemma has_char_prefix (c : ascii) (p s : string) :
  startswith s p = true -> has_char c p = true -> has_char c s = true.
Proof.
  intros Hp Hc. apply startswith_spec in Hp as [b ->].
  induction p as [|a p IH]; simpl in *; [discriminate|].
  destruct (Ascii.eqb a c); [reflexivity|]. now apply IH.
Qed.

(** A line recognised as a key line has an [=], so [split("=", 1)[1]]
exists. *)
Lemma key_line_has_eq (line : string) :
  startswith (strip line) "CARVER_API_KEY=" = true ->
  exists a v, cut "=" line = Some (a, v).
Proof.
  intros Hp.
  assert (Hc : has_char "=" line = true).
  { apply has_char_lstrip, has_char_rstrip.
    eapply has_char_prefix; [exact Hp | reflexivity]. }
  destruct (cut "=" line) as [[a v]|] eqn:E; [now exists a, v|].
  apply cut_has_char in E. congruence.
Qed.

(** ** Runs of the library calls and of the steps *)

(** Case analysis on the next child of the goal. *)
Ltac case_spawn r e w :=
  match goal with
  | |- context [spawn ?H ?c ?x] =>
      let E := fresh "Espawn" in
      destruct (spawn H c x) as [[r|e] w] eqn:E
  end.

Section Runs.

Context {World : Type}.
Variable H : Host World.
Variable P : Process.

Local Abbreviation Py := (M World).
Local Abbreviation cwd := (get_user_cwd H P).
Local Abbreviation py0 := (get_venv_python H P (get_venv_path H P)).

Lemma print_run (line : string) (s : state World) :
  print line s = (Ret tt, mkState (world s) (out s ++ line ++ nl) (spawned s)).
Proof. reflexivity. Qed.

(** The keyword the script passes makes [check_call] fail before a child
exists, so the upgrade never runs and always ends in the warning. *)
Lemma upgrade_pip_run (python_exe : string) (s : state World) :
  upgrade_pip H python_exe s =
  (Ret false,
   mkState (world s)
     ((out s ++ "Upgrading pip..." ++ nl)
      ++ ("WARNING: Could not upgrade pip: "
          ++ describe H (TypeError
               "Popen.__init__() got an unexpected keyword argument 'capture_output'"))
      ++ nl)
     (spawned s)).
Proof. reflexivity. Qed.

Lemma try_candidate_run (c : string) (s : state World) :
  try_candidate H c s =
  (Ret (match acceptable (fst (spawn H (version_call c) (world s))) with
        | Some v => Some (c, v)
        | None => None
        end),
   mkState (snd (spawn H (version_call c) (world s))) (out s)
           (spawned s ++ [version_call c])).
Proof.
  unfold try_candidate, try_except, bind, subprocess_run, acceptable.
  destruct (spawn H (version_call c) (world s)) as [[r|e] w]; simpl; [|reflexivity].
  destruct (returncode r =? 0); simpl; [|reflexivity].
  destruct (version_accepted (strip (stdout r))); reflexivity.
Qed.

Lemma is_sdk_installed_run (python_exe : string) (s : state World) :
  is_sdk_installed H python_exe s =
  (Ret (match fst (spawn H (sdk_probe_call python_exe) (world s)) with
        | Completed r => returncode r =? 0
        | Failed _ => false
        end),
   mkState (snd (spawn H (sdk_probe_call python_exe) (world s))) (out s)
           (spawned s ++ [sdk_probe_call python_exe])).
Proof.
  unfold is_sdk_installed, try_except, bind, subprocess_run.
  destruct (spawn H (sdk_probe_call python_exe) (world s)) as [[r|e] w]; reflexivity.
Qed.

(** The helper step always returns a value: every exception is swallowed. *)
Lemma ensure_python_dotenv_returns (python_exe : string) (s : state World) :
  exists b s', ensure_python_dotenv H python_exe s = (Ret b, s').
Proof.
  unfold ensure_python_dotenv, try_except, bind, subprocess_run,
    subprocess_check_call, ret.
  destruct (spawn H (dotenv_probe_call python_exe) (world s)) as [[r|e] w];
    simpl; [|eauto].
  destruct (returncode r =? 0); [eauto|].
  case_spawn r' e' w'; simpl; [|eauto].
  destruct (returncode r' =? 0); eauto.
Qed.

(** The helper step prints nothing itself: standard output grows by at most
the output of the installer child. *)
Lemma ensure_python_dotenv_quiet (python_exe : string) (s : state World) :
  out (snd (ensure_python_dotenv H python_exe s)) = out s \/
  exists r w w',
    spawn H (mkCall (dotenv_install_call python_exe) false false 60) w
      = (Completed r, w') /\
    out (snd (ensure_python_dotenv H python_exe s)) = out s ++ stdout r.
Proof.
  unfold ensure_python_dotenv, try_except, bind, subprocess_run,
    subprocess_check_call, ret.
  destruct (spawn H (dotenv_probe_call python_exe) (world s)) as [[r|e] w];
    simpl; [|now left].
  destruct (returncode r =? 0); [now left|].
  case_spawn r' e' w'; simpl; [|now left].
  right. exists r', w, w'. split; [exact Espawn|].
  destruct (returncode r' =? 0); reflexivity.
Qed.

Lemma install_sdk_run (python_exe : string) (s : state World) :
  let c := mkCall (sdk_install_call python_exe) false false 120 in
  let s0 := mkState (world s) (out s ++ "Installing carver-feeds-sdk..." ++ nl)
                    (spawned s) in
  install_sdk H python_exe s =
  match spawn H c (world s) with
  | (Completed r, w) =>
      if returncode r =? 0
      then (Ret true,
            mkState w ((out s0 ++ stdout r) ++ "✓ SDK installed" ++ nl)
                    (spawned s ++ [c]))
      else (Exit 1,
            mkState w ((out s0 ++ stdout r)
                       ++ ("ERROR: Failed to install SDK: "
                           ++ describe H (CalledProcessError (returncode r)
                                            (sdk_install_call python_exe)))
                       ++ nl)
                    (spawned s ++ [c]))
  | (Failed e, w) =>
      (Exit 1,
       mkState w (out s0 ++ ("ERROR: Failed to install SDK: " ++ describe H e) ++ nl)
               (spawned s ++ [c]))
  end.
Proof.
  unfold install_sdk, try_except, bind, subprocess_check_call, print, sys_exit, ret.
  simpl.
  case_spawn r e w; simpl; [|reflexivity].
  destruct (returncode r =? 0); reflexivity.
Qed.

Lemma test_sdk_connection_run (python_exe d : string) (s : state World) :
  exists o,
    test_sdk_connection H python_exe d s =
    (Ret (match fst (spawn H (verify_call python_exe d) (world s)) with
          | Completed r => (returncode r =? 0) && contains "SUCCESS" (stdout r)
          | Failed _ => false
          end),
     mkState (snd (spawn H (verify_call python_exe d) (world s))) (out s ++ o)
             (spawned s ++ [verify_call python_exe d])).
Proof.
  unfold test_sdk_connection, try_except, bind, subprocess_run, print, ret.
  destruct (spawn H (verify_call python_exe d) (world s)) as [[r|e] w]; simpl.
  - destruct ((returncode r =? 0) && contains "SUCCESS" (stdout r)); simpl.
    + eexists. reflexivity.
    + destruct (negb (stderr r =? "")%string);
        destruct (negb (stdout r =? "")%string && contains "ERROR" (stdout r));
        simpl; rewrite ?append_assoc; eexists; reflexivity.
  - eexists. reflexivity.
Qed.

End Runs.

(** ** Interpreter selection *)

Section Selection.

Context {World : Type}.
Variable H : Host World.

Lemma find_in_rejected (cs : list string) :
  forall (s : state World) (w1 : World),
    Rejected H cs (world s) w1 ->
    find_compatible_python_in H cs s =
    (Ret (None, None), mkState w1 (out s) (spawned s ++ map version_call cs)).
Proof.
  induction cs as [|c cs IH]; intros s w1 HR; inversion HR; subst; simpl.
  - rewrite app_nil_r. now destruct s.
  - unfold bind. rewrite try_candidate_run.
    match goal with E : spawn H _ _ = _ |- _ => rewrite E end. simpl.
    match goal with E : acceptable _ = None |- _ => rewrite E end.
    rewrite (IH _ w1); simpl; [|assumption].
    now rewrite <- app_assoc.
Qed.

Lemma find_in_first (pre : list string) :
  forall (c : string) (post : list string) (s : state World)
         (w1 w2 : World) (o : Outcome) (v : string),
    Rejected H pre (world s) w1 ->
    spawn H (version_call c) w1 = (o, w2) ->
    acceptable o = Some v ->
    find_compatible_python_in H (pre ++ c :: post) s =
    (Ret (Some c, Some v),
     mkState w2 (out s) (spawned s ++ map version_call (pre ++ [c]))).
Proof.
  induction pre as [|p pre IH]; intros c post s w1 w2 o v HR Hs Ha;
    inversion HR; subst; simpl.
  - unfold bind. rewrite try_candidate_run, Hs. simpl. now rewrite Ha.
  - unfold bind. rewrite try_candidate_run.
    match goal with E : spawn H (version_call p) _ = _ |- _ => rewrite E end. simpl.
    match goal with E : acceptable _ = None |- _ => rewrite E end.
    erewrite IH; simpl; eauto.
    now rewrite <- app_assoc.
Qed.

(** Every search is of one of the two kinds. *)
Lemma find_in_total (cs : list string) :
  forall w : World,
    (exists w1, Rejected H cs w w1) \/
    (exists (pre : list string) c post w1 o w2 v,
        cs = (pre ++ c :: post)%list /\ Rejected H pre w w1 /\
        spawn H (version_call c) w1 = (o, w2) /\ acceptable o = Some v).
Proof.
  induction cs as [|c cs IH]; intros w.
  - left. exists w. constructor.
  - destruct (spawn H (version_call c) w) as [o w1] eqn:Es.
    destruct (acceptable o) as [v|] eqn:Ea.
    + right. exists [], c, cs, w, o, w1, v. repeat split; auto. constructor.
    + destruct (IH w1) as [[w2 HR] | (pre & c' & post & w2 & o' & w3 & v & -> & HR & Hs & Ha)].
      * left. exists w2. econstructor; eauto.
      * right. exists (c :: pre), c', post, w2, o', w3, v.
        repeat split; auto. econstructor; eauto.
Qed.

(** C5: [find_compatible_python] goes through its candidate list in order
and returns the first candidate whose version query ends with status zero and
an accepted version line, whatever the later candidates would answer and
without querying them; a candidate whose query raises (a missing executable,
a timeout) is passed over; when every candidate is rejected the result is
[(None, None)]. *)
Theorem find_compatible_python_first_match
        (pre : list string) (c : string) (post : list string)
        (s : state World) (w1 w2 : World) (r : CompletedProcess) :
  Rejected H pre (world s) w1 ->
  spawn H (version_call c) w1 = (Completed r, w2) ->
  returncode r = 0 ->
  version_accepted (strip (stdout r)) = true ->
  (* the first acceptable candidate is returned, the later ones untouched *)
  find_compatible_python_in H (pre ++ c :: post) s =
    (Ret (Some c, Some (strip (stdout r))),
     mkState w2 (out s) (spawned s ++ map version_call (pre ++ [c])))
  (* a query that raises rejects the candidate *)
  /\ (forall c' w e w', spawn H (version_call c') w = (Failed e, w') ->
                        Rejected H [c'] w w')
  (* no acceptable candidate: no interpreter *)
  /\ (forall cs s' w', Rejected H cs (world s') w' ->
        fst (find_compatible_python_in H cs s') = Ret (None, None))
  (* the script's search is this loop over its own list *)
  /\ find_compatible_python H = find_compatible_python_in H candidates.
Proof.
  intros HR Hs Hrc Hv. repeat split.
  - eapply find_in_first; eauto. simpl. now rewrite Hrc, Hv.
  - intros c' w e w' Hf. econstructor; [exact Hf | reflexivity | constructor].
  - intros cs s' w' HR'. now rewrite (find_in_rejected _ _ _ HR').
Qed.

End Selection.

(** ** The credential file *)

Section Credential.

Context {World : Type}.
Variable H : Host World.

Lemma scan_lines_run (lines : list string) (s : state World) :
  @scan_lines World lines s = (Ret (key_result (first_key lines)), s).
Proof.
  induction lines as [|line rest IH]; [reflexivity|].
  cbn [scan_lines first_key]. unfold key_of_line.
  destruct (startswith (strip line) "CARVER_API_KEY=") eqn:Hp; [|exact IH].
  destruct (key_line_has_eq line Hp) as (a & v & Hc).
  unfold bind, item1, split1. rewrite Hc. cbn [nth_error ret].
  destruct (strip v =? "")%string; cbn [negb andb orb]; [exact IH|].
  destruct (strip v =? placeholder)%string; cbn [negb andb orb];
    [exact IH | reflexivity].
Qed.

Lemma check_env_file_missing (d : string) (s : state World) :
  lookup H (world s) (path_join H d ".env") = None ->
  check_env_file H d s = (Ret (false, None), s).
Proof.
  intros Hl. unfold check_env_file, bind, path_exists. now rewrite Hl.
Qed.

Lemma check_env_file_text (d t : string) (s : state World) :
  lookup H (world s) (path_join H d ".env") = Some (File t) ->
  check_env_file H d s = (Ret (key_result (first_key (readlines t))), s).
Proof.
  intros Hl. unfold check_env_file, bind, path_exists, open_lines.
  rewrite Hl. simpl. rewrite Hl. apply scan_lines_run.
Qed.

Lemma check_env_file_dir (d : string) (s : state World) :
  lookup H (world s) (path_join H d ".env") = Some Dir ->
  check_env_file H d s =
  (Raise (OSError "IsADirectoryError" (path_join H d ".env")), s).
Proof.
  intros Hl. unfold check_env_file, bind, path_exists, open_lines.
  rewrite Hl. simpl. now rewrite Hl.
Qed.

(** Reading the credential never changes the state, whatever the file. *)
Lemma check_env_file_state (d : string) (s : state World) :
  snd (check_env_file H d s) = s.
Proof.
  destruct (lookup H (world s) (path_join H d ".env")) as [[t|]|] eqn:Hl.
  - now rewrite (check_env_file_text _ _ _ Hl).
  - now rewrite (check_env_file_dir _ _ Hl).
  - now rewrite (check_env_file_missing _ _ Hl).
Qed.

Lemma first_key_app (pre : list string) (line : string) (post : list string)
      (k : string) :
  (forall l, In l pre -> key_of_line l = None) ->
  key_of_line line = Some k ->
  first_key (pre ++ line :: post) = Some k.
Proof.
  intros Hpre Hk. induction pre as [|p pre IH]; simpl.
  - now rewrite Hk.
  - rewrite (Hpre p (or_introl eq_refl)). apply IH.
    intros l Hl. apply Hpre. now right.
Qed.

Lemma first_key_none (lines : list string) :
  first_key lines = None <-> forall l, In l lines -> key_of_line l = None.
Proof.
  induction lines as [|l lines IH]; simpl.
  - split; [intros _ l [] | reflexivity].
  - destruct (key_of_line l) eqn:E.
    + split; [discriminate|]. intros Hall.
      rewrite (Hall l (or_introl eq_refl)) in E. discriminate.
    + rewrite IH. split.
      * intros Hall l' [<-|Hin]; auto.
      * intros Hall l' Hin. apply Hall. now right.
Qed.

(** C10: [check_env_file] goes through the credential file line by line and
returns the key of the first line, in file order, whose stripped text starts
with [CARVER_API_KEY=] and whose value (the text after the first [=] of the
line, trimmed) is neither empty nor the placeholder.  A line with an empty
or placeholder value does not end the scan: a valid key line after any number
of such lines is the one returned.  The value is cut at the first [=] only,
so it keeps every later [=]. *)
Theorem check_env_file_first_valid_key (d t : string) (s : state World) :
  lookup H (world s) (path_join H d ".env") = Some (File t) ->
  (* the result is the first key in file order, the state is untouched *)
  check_env_file H d s = (Ret (key_result (first_key (readlines t))), s)
  (* lines without a usable value before a valid line are passed over *)
  /\ (forall (pre : list string) line post k,
         readlines t = (pre ++ line :: post)%list ->
         (forall l, In l pre -> key_of_line l = None) ->
         key_of_line line = Some k ->
         check_env_file H d s = (Ret (true, Some k), s))
  (* an empty or placeholder value makes a line unusable *)
  /\ (forall line a v,
         cut "=" line = Some (a, v) ->
         strip v = "" \/ strip v = placeholder ->
         key_of_line line = None)
  (* the key is all the text after the first [=], trimmed *)
  /\ (forall line k,
         key_of_line line = Some k ->
         exists a v, line = a ++ "=" ++ v /\ has_char "=" a = false /\ k = strip v).
Proof.
  intros Hl. repeat split.
  - now apply check_env_file_text.
  - intros pre line post k Hsplit Hpre Hk.
    rewrite (check_env_file_text _ _ _ Hl), Hsplit.
    now rewrite (first_key_app pre line post k Hpre Hk).
  - intros line a v Hc Hv. unfold key_of_line. rewrite Hc.
    destruct (startswith (strip line) "CARVER_API_KEY="); [|reflexivity].
    destruct Hv as [-> | ->]; reflexivity.
  - intros line k Hk. unfold key_of_line in Hk.
    destruct (startswith (strip line) "CARVER_API_KEY="); [|discriminate].
    destruct (cut "=" line) as [[a v]|] eqn:Hc; [|discriminate].
    apply cut_spec in Hc as [-> Ha].
    exists a, v. repeat split; auto.
    destruct ((strip v =? "") || (strip v =? placeholder))%string;
      [discriminate | congruence].
Qed.

End Credential.

(** ** The sequence as a whole *)

Lemma bind_assoc {W A B C} (m : M W A) (k : A -> M W B) (h : B -> M W C)
      (s : state W) :
  bind (bind m k) h s = bind m (fun a => bind (k a) h) s.
Proof. unfold bind. destruct (m s) as [[a|c|e] s1]; reflexivity. Qed.

Lemma bind_ext {W A B} (m : M W A) (k k' : A -> M W B) :
  (forall a s, k a s = k' a s) -> forall s, bind m k s = bind m k' s.
Proof.
  intros Hk s. unfold bind. destruct (m s) as [[a|c|e] s1]; auto.
Qed.

Lemma bind_print {W B} (line : string) (k : unit -> M W B) (s : state W) :
  bind (print line) k s =
  k tt (mkState (world s) (out s ++ line ++ nl) (spawned s)).
Proof. reflexivity. Qed.

Section Sequence.

Context {World : Type}.
Variable H : Host World.
Variable P : Process.

Local Abbreviation cwd := (get_user_cwd H P).
Local Abbreviation venv := (get_venv_path H P).
Local Abbreviation py0 := (get_venv_python H P (get_venv_path H P)).

Lemma main_provision (s : state World) :
  main H P s =
  match provision H P s with
  | (Ret python_exe, s1) => from_credential H python_exe cwd s1
  | (Exit c, s1) => (Exit c, s1)
  | (Raise e, s1) => (Raise e, s1)
  end.
Proof.
  change (main H P s =
          bind (provision H P) (fun py => from_credential H py cwd) s).
  unfold main, provision.
  repeat (rewrite bind_assoc; apply bind_ext; intros ? ?).
  reflexivity.
Qed.

Lemma main_announced (s : state World) :
  main H P s =
  bind (ensure_venv H P) (fun python_exe => from_pip H python_exe cwd) (announced H P s).
Proof. reflexivity. Qed.

Lemma provision_announced (s : state World) :
  provision H P s =
  bind (ensure_venv H P)
       (fun python_exe =>
          upgrade_pip H python_exe ;;
          installed <- is_sdk_installed H python_exe ;;
          (if negb installed then install_sdk H python_exe ;; ret tt else ret tt) ;;
          ensure_python_dotenv H python_exe ;;
          ret python_exe)
       (announced H P s).
Proof. reflexivity. Qed.

Lemma prompt_run {A} (d : string) (s : state World) :
  @prompt_for_api_key World A d s =
  (Exit 2, mkState (world s) (out s ++ prompt_text d) (spawned s)).
Proof.
  unfold prompt_for_api_key.
  repeat (rewrite bind_print; cbn [world out spawned]).
  unfold sys_exit, prompt_text. cbn [String.concat].
  rewrite !append_assoc, append_nil_r. reflexivity.
Qed.

Lemma prompt_text_ends (d : string) :
  ends_with (need_credential_lines d) (prompt_text d).
Proof.
  unfold ends_with, prompt_text, need_credential_lines.
  cbn [String.concat]. rewrite append_nil_r.
  eexists. rewrite <- !append_assoc. reflexivity.
Qed.

Lemma ends_with_app (e a b : string) : ends_with e b -> ends_with e (a ++ b).
Proof. intros [x ->]. exists (a ++ x). now rewrite append_assoc. Qed.

(** *** Step 6 *)

Lemma test_sdk_connection_exact (python_exe d : string) (s : state World) :
  let o := fst (spawn H (verify_call python_exe d) (world s)) in
  test_sdk_connection H python_exe d s =
  (Ret (verified o),
   mkState (snd (spawn H (verify_call python_exe d) (world s)))
           (out s ++ (if verified o then "✓ SDK connection verified" ++ nl
                      else diagnostics H o))
           (spawned s ++ [verify_call python_exe d])).
Proof.
  unfold test_sdk_connection, try_except, bind, subprocess_run, print, ret,
    verified, diagnostics.
  case_spawn r e w; cbn [fst snd world out spawned]; [|reflexivity].
  destruct ((returncode r =? 0) && contains "SUCCESS" (stdout r));
    cbn [world out spawned]; [reflexivity|].
  destruct (stderr r =? "")%string;
    destruct (negb (stdout r =? "")%string && contains "ERROR" (stdout r));
    cbn [negb world out spawned]; rewrite ?append_assoc, ?append_nil_r;
    reflexivity.
Qed.

Lemma from_verify_run (python_exe d : string) (s : state World) :
  let o := fst (spawn H (verify_call python_exe d) (world s)) in
  let w := snd (spawn H (verify_call python_exe d) (world s)) in
  from_verify H python_exe d s =
  if verified o
  then (Exit 0,
        mkState w (out s ++ ("✓ SDK connection verified" ++ nl)
                         ++ success_lines python_exe d)
                (spawned s ++ [verify_call python_exe d]))
  else (Exit 1,
        mkState w (out s ++ diagnostics H o ++ failure_lines d)
                (spawned s ++ [verify_call python_exe d])).
Proof.
  cbv zeta. unfold from_verify, bind at 1.
  rewrite test_sdk_connection_exact.
  destruct (verified (fst (spawn H (verify_call python_exe d) (world s))));
    unfold bind, print, sys_exit, ret, success_lines, failure_lines;
    cbn [negb world out spawned]; rewrite ?append_assoc; reflexivity.
Qed.

(** *** Step 5 *)

Lemma check_env_file_cases (d : string) (s : state World) :
  (exists k, fst (check_env_file H d s) = Ret (true, Some k)) \/
  fst (check_env_file H d s) = Ret (false, None) \/
  (exists e, fst (check_env_file H d s) = Raise e).
Proof.
  destruct (lookup H (world s) (path_join H d ".env")) as [[t|]|] eqn:Hl.
  - rewrite (check_env_file_text _ _ _ _ Hl).
    destruct (first_key (readlines t)) as [k|]; simpl; eauto.
  - rewrite (check_env_file_dir _ _ _ Hl). simpl. eauto.
  - rewrite (check_env_file_missing _ _ _ Hl). simpl. eauto.
Qed.

Lemma from_credential_key (python_exe d k : string) (s : state World) :
  fst (check_env_file H d s) = Ret (true, Some k) ->
  from_credential H python_exe d s = from_verify H python_exe d s.
Proof.
  intros Hc. unfold from_credential, bind at 1.
  pose proof (check_env_file_state H d s) as Hs.
  destruct (check_env_file H d s) as [r s']. simpl in Hc, Hs. subst r s'.
  reflexivity.
Qed.

Lemma from_credential_absent (python_exe d : string) (s : state World) :
  fst (check_env_file H d s) = Ret (false, None) ->
  from_credential H python_exe d s =
  (Exit 2, mkState (world s) (out s ++ prompt_text d) (spawned s)).
Proof.
  intros Hc. unfold from_credential, bind at 1.
  pose proof (check_env_file_state H d s) as Hs.
  destruct (check_env_file H d s) as [r s']. simpl in Hc, Hs. subst r s'.
  cbn [negb]. unfold bind at 1. now rewrite prompt_run.
Qed.

Lemma from_credential_raise (python_exe d : string) (e : exn) (s : state World) :
  fst (check_env_file H d s) = Raise e ->
  from_credential H python_exe d s = (Raise e, s).
Proof.
  intros Hc. unfold from_credential, bind at 1.
  pose proof (check_env_file_state H d s) as Hs.
  destruct (check_env_file H d s) as [r s']. simpl in Hc, Hs. subst r s'.
  reflexivity.
Qed.

(** *** Step 1 *)

Lemma find_in_returns (cs : list string) (s : state World) :
  exists p v s', find_compatible_python_in H cs s = (Ret (p, v), s').
Proof.
  destruct (find_in_total H cs (world s))
    as [[w1 HR] | (pre & c & post & w1 & o & w2 & v & -> & HR & Hs & Ha)].
  - rewrite (find_in_rejected H cs s w1 HR). eauto.
  - rewrite (find_in_first H pre c post s w1 w2 o v HR Hs Ha). eauto.
Qed.

Lemma ensure_venv_reuse (n : node) (s : state World) :
  lookup H (world s) venv = Some n ->
  ensure_venv H P s = (Ret py0, s).
Proof.
  intros Hl. unfold ensure_venv, bind at 1, path_exists. now rewrite Hl.
Qed.

(** The state in which the making of the environment is attempted. *)
Lemma ensure_venv_create (s s1 : state World) (p : string) (v : option string) :
  lookup H (world s) venv = None ->
  find_compatible_python H
    (mkState (world s) (out s ++ "Creating virtual environment..." ++ nl) (spawned s))
    = (Ret (Some p, v), s1) ->
  p <> "" ->
  let c := mkCall (venv_call p venv) false false 60 in
  exists o1 o2,
    ensure_venv H P s =
    match spawn H c (world s1) with
    | (o, w) =>
        if failed_child o
        then (Exit 1, mkState w (out s1 ++ o1 o) (spawned s1 ++ [c]))
        else (Ret py0, mkState w (out s1 ++ o2 o) (spawned s1 ++ [c]))
    end.
Proof.
  intros Hl Hf Hp. cbv zeta.
  unfold ensure_venv, bind at 1, path_exists. rewrite Hl.
  rewrite bind_print. unfold bind at 1. rewrite Hf.
  assert (Hfalsy : falsy (Some p) = false).
  { simpl. destruct (String.eqb_spec p ""); congruence. }
  rewrite Hfalsy. rewrite bind_print. cbn [world out spawned fmt].
  unfold try_except, bind at 1, subprocess_check_call.
  cbn [world out spawned].
  exists (fun o =>
            ("✓ Found compatible Python: " ++ fmt v ++ nl)
            ++ match o with
               | Completed r =>
                   stdout r
                   ++ "ERROR: Failed to create virtual environment: "
                   ++ describe H (CalledProcessError (returncode r) (venv_call p venv))
                   ++ nl
               | Failed e =>
                   "ERROR: Failed to create virtual environment: "
                   ++ describe H e ++ nl
               end).
  exists (fun o =>
            ("✓ Found compatible Python: " ++ fmt v ++ nl)
            ++ match o with
               | Completed r => stdout r ++ "✓ Virtual environment created" ++ nl
               | Failed e => ""
               end).
  case_spawn r e w; cbn [failed_child].
  - destruct (returncode r =? 0); cbn [negb];
      repeat (rewrite bind_print; cbn [world out spawned]);
      unfold sys_exit, ret; rewrite ?append_assoc; reflexivity.
  - repeat (rewrite bind_print; cbn [world out spawned]).
    unfold sys_exit. rewrite ?append_assoc. reflexivity.
Qed.

Lemma ensure_venv_cases (s : state World) :
  (exists s', ensure_venv H P s = (Ret py0, s')) \/
  (exists s', ensure_venv H P s = (Exit 1, s')).
Proof.
  destruct (lookup H (world s) venv) as [n|] eqn:Hl.
  - left. exists s. eapply ensure_venv_reuse; eauto.
  - destruct (find_in_returns candidates
               (mkState (world s) (out s ++ "Creating virtual environment..." ++ nl)
                        (spawned s))) as (p & v & s1 & Hf).
    destruct (falsy p) eqn:Hp.
    + right. unfold ensure_venv, bind at 1, path_exists. rewrite Hl.
      rewrite bind_print. unfold bind at 1, find_compatible_python. rewrite Hf, Hp.
      repeat (rewrite bind_print; cbn [world out spawned]).
      unfold sys_exit. eauto.
    + destruct p as [p|]; [|discriminate]. simpl in Hp.
      assert (Hne : p <> "") by (intros ->; discriminate).
      destruct (ensure_venv_create s s1 p v Hl Hf Hne) as (o1 & o2 & ->).
      destruct (spawn H _ (world s1)) as [o w].
      destruct (failed_child o); eauto.
Qed.

(** *** Steps 1 to 4 *)

Lemma bind_run {A B} (m : M World A) (k : A -> M World B) (a : A)
      (s s1 : state World) :
  m s = (Ret a, s1) -> bind m k s = k a s1.
Proof. intros E. unfold bind. now rewrite E. Qed.

Lemma bind_exit {A B} (m : M World A) (k : A -> M World B) (c : Z)
      (s s1 : state World) :
  m s = (Exit c, s1) -> bind m k s = (Exit c, s1).
Proof. intros E. unfold bind. now rewrite E. Qed.

Lemma install_sdk_cases (python_exe : string) (s : state World) :
  (exists s', install_sdk H python_exe s = (Ret true, s')) \/
  (exists s', install_sdk H python_exe s = (Exit 1, s')).
Proof.
  rewrite install_sdk_run. cbv zeta.
  case_spawn r e w; [|eauto].
  destruct (returncode r =? 0); eauto.
Qed.

Lemma provision_cases (s : state World) :
  (exists s1, provision H P s = (Ret py0, s1)) \/
  (exists s1, provision H P s = (Exit 1, s1)).
Proof.
  rewrite provision_announced.
  destruct (ensure_venv_cases (announced H P s)) as [[s1 E1] | [s1 E1]].
  2: { right. exists s1. now apply bind_exit. }
  rewrite (bind_run _ _ _ _ _ E1).
  rewrite (bind_run _ _ _ _ _ (upgrade_pip_run H py0 s1)).
  rewrite (bind_run _ _ _ _ _ (is_sdk_installed_run H py0 _)).
  match goal with
  | |- context [negb ?b] => destruct b; cbn [negb]
  end.
  - rewrite (bind_run _ _ tt _ _ eq_refl).
    destruct (ensure_python_dotenv_returns H py0
                (mkState (snd (spawn H (sdk_probe_call py0) (world s1)))
                   ((out s1 ++ "Upgrading pip..." ++ nl)
                    ++ ("WARNING: Could not upgrade pip: "
                        ++ describe H (TypeError
                             "Popen.__init__() got an unexpected keyword argument 'capture_output'"))
                    ++ nl)
                   (spawned s1 ++ [sdk_probe_call py0]))) as (b & s2 & E2).
    cbn [world out spawned] in *.
    rewrite (bind_run _ _ _ _ _ E2). left. now exists s2.
  - match goal with
    | |- context [bind _ _ ?x] =>
        destruct (install_sdk_cases py0 x) as [[s2 E2] | [s2 E2]]
    end.
    + rewrite (bind_run (install_sdk H py0 ;; ret tt) _ tt _ s2)
        by (now rewrite (bind_run _ _ _ _ _ E2)).
      destruct (ensure_python_dotenv_returns H py0 s2) as (b & s3 & E3).
      rewrite (bind_run _ _ _ _ _ E3). left. now exists s3.
    + right. exists s2. apply bind_exit. now apply bind_exit.
Qed.

Lemma main_cases (s : state World) :
  (exists s1, provision H P s = (Exit 1, s1) /\ main H P s = (Exit 1, s1)) \/
  (exists s1,
      provision H P s = (Ret py0, s1) /\
      ((exists e, fst (check_env_file H cwd s1) = Raise e /\
                  main H P s = (Raise e, s1)) \/
       (fst (check_env_file H cwd s1) = Ret (false, None) /\
        main H P s =
        (Exit 2, mkState (world s1) (out s1 ++ prompt_text cwd) (spawned s1))) \/
       (exists k, fst (check_env_file H cwd s1) = Ret (true, Some k) /\
                  main H P s = from_verify H py0 cwd s1))).
Proof.
  rewrite main_provision.
  destruct (provision_cases s) as [[s1 Ep] | [s1 Ep]]; rewrite Ep.
  - right. exists s1. split; [reflexivity|].
    destruct (check_env_file_cases cwd s1) as [[k Hk] | [Hn | [e He]]].
    + right; right. exists k. split; [assumption|].
      eapply from_credential_key; eauto.
    + right; left. split; [assumption|]. now apply from_credential_absent.
    + left. exists e. split; [assumption|]. now apply from_credential_raise.
  - left. exists s1. now split.
Qed.

Lemma verified_test (python_exe d : string) (s : state World) :
  fst (test_sdk_connection H python_exe d s)
  = Ret (verified (fst (spawn H (verify_call python_exe d) (world s)))).
Proof. now rewrite test_sdk_connection_exact. Qed.

Lemma absent_iff (d : string) (s : state World) :
  fst (check_env_file H d s) = Ret (false, None) <->
  lookup H (world s) (path_join H d ".env") = None \/
  exists t, lookup H (world s) (path_join H d ".env") = Some (File t) /\
            forall l, In l (readlines t) -> key_of_line l = None.
Proof.
  destruct (lookup H (world s) (path_join H d ".env")) as [[t|]|] eqn:Hl.
  - rewrite (check_env_file_text _ _ _ _ Hl). cbn [fst].
    split.
    + intros Hk. right. exists t. split; [reflexivity|].
      apply first_key_none.
      destruct (first_key (readlines t)); [discriminate | reflexivity].
    + intros [Hk | (t' & [= <-] & Hk)]; [discriminate|].
      apply first_key_none in Hk. now rewrite Hk.
  - rewrite (check_env_file_dir _ _ _ Hl). cbn [fst]. split; [discriminate|].
    intros [Hk | (t' & Hk & _)]; discriminate.
  - rewrite (check_env_file_missing _ _ _ Hl). cbn [fst]. split; auto.
Qed.

(** C1: [main] ends in one of three ways.  Status 0 exactly when the
provisioning steps got through, a usable key was found and the verification
succeeded; status 2 exactly when the provisioning steps got through and the
credential is absent (no file, or no line with a value other than the
placeholder); status 1 in every other case, which covers every fatal
environment, install and verification failure.  [main] never runs off its
end. *)
Theorem main_exit_status (s : state World) :
  let r := main H P s in
  (exit_status r = 0 \/ exit_status r = 1 \/ exit_status r = 2)
  /\ (forall a, fst r <> Ret a)
  /\ (exit_status r = 0 <->
      exists s1 k,
        provision H P s = (Ret py0, s1) /\
        fst (check_env_file H cwd s1) = Ret (true, Some k) /\
        fst (test_sdk_connection H py0 cwd s1) = Ret true)
  /\ (exit_status r = 2 <->
      exists s1,
        provision H P s = (Ret py0, s1) /\
        fst (check_env_file H cwd s1) = Ret (false, None))
  /\ (forall s1,
        fst (check_env_file H cwd s1) = Ret (false, None) <->
        lookup H (world s1) (path_join H cwd ".env") = None \/
        exists t, lookup H (world s1) (path_join H cwd ".env") = Some (File t) /\
                  forall l, In l (readlines t) -> key_of_line l = None)
  /\ (forall c s1, provision H P s = (Exit c, s1) -> c = 1 /\ exit_status r = 1)
  /\ (forall s1 k,
        provision H P s = (Ret py0, s1) ->
        fst (check_env_file H cwd s1) = Ret (true, Some k) ->
        fst (test_sdk_connection H py0 cwd s1) = Ret false ->
        exit_status r = 1).
Proof.
  cbv zeta. unfold exit_status.
  destruct (main_cases s)
    as [(s1 & Ep & Em) | (s1 & Ep & [(e & Hc & Em) | [(Hc & Em) | (k & Hc & Em)]])];
    rewrite Em; [| | | rewrite from_verify_run; cbv zeta;
                       pose proof (verified_test py0 cwd s1) as Hv;
                       destruct (verified (fst (spawn H (verify_call py0 cwd)
                                                      (world s1))))];
    cbn [fst];
    repeat split; auto; try discriminate; try apply absent_iff;
    try solve [intros;
               repeat match goal with
                 | Hx : exists _, _ |- _ => destruct Hx
                 | Hx : _ /\ _ |- _ => destruct Hx
                 end; congruence];
    try solve [intros; eauto 8].
Qed.

(** *** The missing credential *)

(** C2: a credential file that holds only the placeholder line is treated as
a missing file.  [check_env_file] answers [(False, None)] in both cases, for
every working directory; and [main], once steps 1 to 4 are through, takes the
same path in both cases: it prints the prompt and exits with status 2. *)
Theorem placeholder_same_as_missing (s1 : state World) :
  (forall d (s : state World),
      lookup H (world s) (path_join H d ".env") = None \/
      (exists t, lookup H (world s) (path_join H d ".env") = Some (File t) /\
                 placeholder_only t) ->
      check_env_file H d s = (Ret (false, None), s))
  /\ (lookup H (world s1) (path_join H cwd ".env") = None \/
      (exists t, lookup H (world s1) (path_join H cwd ".env") = Some (File t) /\
                 placeholder_only t) ->
      forall s python_exe,
        provision H P s = (Ret python_exe, s1) ->
        main H P s =
          (Exit 2, mkState (world s1) (out s1 ++ prompt_text cwd) (spawned s1))
        /\ exit_status (main H P s) = 2).
Proof.
  assert (Hce : forall d (s : state World),
             lookup H (world s) (path_join H d ".env") = None \/
             (exists t, lookup H (world s) (path_join H d ".env") = Some (File t) /\
                        placeholder_only t) ->
             check_env_file H d s = (Ret (false, None), s)).
  { intros d s [Hl | (t & Hl & [-> | ->])].
    - now apply check_env_file_missing.
    - now rewrite (check_env_file_text _ _ _ _ Hl).
    - now rewrite (check_env_file_text _ _ _ _ Hl). }
  split; [exact Hce|].
  intros Hl s python_exe Ep.
  assert (Em : main H P s =
               (Exit 2, mkState (world s1) (out s1 ++ prompt_text cwd) (spawned s1))).
  { rewrite main_provision, Ep. apply from_credential_absent.
    now rewrite (Hce cwd s1 Hl). }
  split; [exact Em | now rewrite Em].
Qed.

(** *** The lines for the caller *)

(** C3: on success the last thing [main] writes before it exits with status
0 is, after an empty line, the line [VENV_PYTHON=] with the interpreter of
the environment and the line [CWD=] with the resolved working directory; on
a missing credential the last thing written before the exit with status 2 is,
after an empty line, the bare line [API_KEY_REQUIRED] and the line [CWD=]
with the resolved working directory, and [prompt_for_api_key] is what writes
them, for any directory it is given. *)
Theorem stdout_contract (s : state World) :
  (forall s', main H P s = (Exit 0, s') ->
              ends_with (nl ++ "VENV_PYTHON=" ++ py0 ++ nl ++ "CWD=" ++ cwd ++ nl)
                        (out s'))
  /\ (forall s', main H P s = (Exit 2, s') ->
                 ends_with (nl ++ "API_KEY_REQUIRED" ++ nl ++ "CWD=" ++ cwd ++ nl)
                           (out s'))
  /\ (forall d (s0 : state World),
         exists s0',
           @prompt_for_api_key World unit d s0 = (Exit 2, s0') /\
           world s0' = world s0 /\ spawned s0' = spawned s0 /\
           exists text,
             out s0' = out s0 ++ text ++ nl ++ "API_KEY_REQUIRED" ++ nl
                             ++ "CWD=" ++ d ++ nl).
Proof.
  repeat split.
  - intros s' Hm.
    destruct (main_cases s)
      as [(s1 & Ep & Em) | (s1 & Ep & [(e & Hc & Em) | [(Hc & Em) | (k & Hc & Em)]])];
      rewrite Em in Hm; try discriminate.
    rewrite from_verify_run in Hm. cbv zeta in Hm.
    destruct (verified _); [|discriminate].
    injection Hm as <-. cbn [out].
    apply ends_with_app. exists ("✓ SDK connection verified" ++ nl). reflexivity.
  - intros s' Hm.
    destruct (main_cases s)
      as [(s1 & Ep & Em) | (s1 & Ep & [(e & Hc & Em) | [(Hc & Em) | (k & Hc & Em)]])];
      rewrite Em in Hm; try discriminate.
    + injection Hm as <-. cbn [out]. apply ends_with_app, prompt_text_ends.
    + rewrite from_verify_run in Hm. cbv zeta in Hm.
      destruct (verified _); discriminate.
  - intros d s0. eexists. split; [apply prompt_run|]. cbn [world out spawned].
    repeat split.
    destruct (prompt_text_ends d) as [text Ht]. exists text.
    rewrite Ht. unfold need_credential_lines. reflexivity.
Qed.

(** *** Verification *)

(** C6, as the code has it: the verification succeeds exactly when the child
ends with status zero and [SUCCESS] occurs in its standard output; in every
other case (a non-zero status, a missing marker, a timeout or any other
exception) [test_sdk_connection] returns [False] and [main] exits with status
1.  Of the child's output the diagnostics carry the standard error when it
is not empty, and the standard output only when it is not empty and contains
[ERROR]; when the call raised they carry the text of the exception. *)
Theorem verification_outcome (python_exe d : string) (s : state World) :
  let o := fst (spawn H (verify_call python_exe d) (world s)) in
  let w := snd (spawn H (verify_call python_exe d) (world s)) in
  (fst (test_sdk_connection H python_exe d s) = Ret true <->
   exists r, o = Completed r /\ returncode r = 0 /\ occurs_in "SUCCESS" (stdout r))
  /\ (fst (test_sdk_connection H python_exe d s) = Ret false <->
      ~ exists r, o = Completed r /\ returncode r = 0 /\ occurs_in "SUCCESS" (stdout r))
  /\ (fst (test_sdk_connection H python_exe d s) = Ret false ->
      from_verify H python_exe d s =
        (Exit 1,
         mkState w (out s ++ diagnostics H o ++ failure_lines d)
                 (spawned s ++ [verify_call python_exe d])))
  /\ (forall r, o = Completed r ->
        diagnostics H o =
          "ERROR: SDK connection failed" ++ nl
          ++ (if (stderr r =? "")%string then "" else "  " ++ stderr r ++ nl)
          ++ (if negb (stdout r =? "")%string && contains "ERROR" (stdout r)
              then "  " ++ stdout r ++ nl else ""))
  /\ (forall e, o = Failed e ->
        diagnostics H o =
          "ERROR: Failed to test SDK connection: " ++ describe H e ++ nl)
  /\ (forall s0 k,
        d = cwd ->
        provision H P s0 = (Ret python_exe, s) ->
        fst (check_env_file H cwd s) = Ret (true, Some k) ->
        fst (test_sdk_connection H python_exe d s) = Ret false ->
        exit_status (main H P s0) = 1).
Proof.
  cbv zeta.
  assert (Hv : verified (fst (spawn H (verify_call python_exe d) (world s))) = true <->
               exists r, fst (spawn H (verify_call python_exe d) (world s)) = Completed r
                         /\ returncode r = 0 /\ occurs_in "SUCCESS" (stdout r)).
  { unfold verified.
    destruct (fst (spawn H (verify_call python_exe d) (world s))) as [r|e].
    - rewrite andb_true_iff, Z.eqb_eq, contains_spec. split.
      + intros [? ?]. now exists r.
      + intros (r' & [= <-] & ? & ?). now split.
    - split; [discriminate | intros (r' & Hr & _); discriminate]. }
  rewrite verified_test.
  split; [|split; [|split; [|split; [|split]]]].
  - split.
    + intros [= Hx]. now apply Hv.
    + intros Hex. apply Hv in Hex. now rewrite Hex.
  - split.
    + intros [= Hx] Hex. apply Hv in Hex. congruence.
    + intros Hn.
      destruct (verified (fst (spawn H (verify_call python_exe d) (world s))));
        [|reflexivity].
      exfalso. apply Hn, Hv. reflexivity.
  - intros [= Hx]. rewrite from_verify_run. cbv zeta. now rewrite Hx.
  - intros r ->. reflexivity.
  - intros e ->. reflexivity.
  - intros s0 k -> Ep Hc [= Hx]. rewrite main_provision, Ep.
    rewrite (from_credential_key _ _ _ _ Hc), from_verify_run. cbv zeta.
    now rewrite Hx.
Qed.

(** *** Optional and gating steps *)

Lemma from_pip_continues (python_exe : string) (s : state World) :
  from_pip H python_exe cwd s =
  from_sdk H python_exe cwd (snd (upgrade_pip H python_exe s)).
Proof.
  unfold from_pip. rewrite (bind_run _ _ _ _ _ (upgrade_pip_run H python_exe s)).
  now rewrite upgrade_pip_run.
Qed.

Lemma from_dotenv_continues (python_exe : string) (s : state World) :
  from_dotenv H python_exe cwd s =
  from_credential H python_exe cwd (snd (ensure_python_dotenv H python_exe s)).
Proof.
  unfold from_dotenv.
  destruct (ensure_python_dotenv_returns H python_exe s) as (b & s' & E).
  rewrite (bind_run _ _ _ _ _ E). now rewrite E.
Qed.

(** C7: the pip upgrade and the installation of the dotenv helper never stop
the sequence.  Whatever happens in them (an exception, a non-zero status, a
timeout) each hands back a value, the upgrade having written its progress
line and a warning, the helper step nothing of its own, and [main] goes on
with the next step from the state they leave.  A failed making of the
environment and a failed installation of the SDK end the process with
status 1. *)
Theorem optional_steps_continue_gating_steps_stop
        (python_exe : string) (s : state World) :
  (* step 2 *)
  (exists b s' msg,
      upgrade_pip H python_exe s = (Ret b, s') /\
      out s' = (out s ++ "Upgrading pip..." ++ nl)
               ++ ("WARNING: Could not upgrade pip: " ++ msg) ++ nl /\
      from_pip H python_exe cwd s = from_sdk H python_exe cwd s')
  (* step 4 *)
  /\ (exists b s',
         ensure_python_dotenv H python_exe s = (Ret b, s') /\
         (out s' = out s \/
          exists r w w',
            spawn H (mkCall (dotenv_install_call python_exe) false false 60) w
              = (Completed r, w') /\
            out s' = out s ++ stdout r) /\
         from_dotenv H python_exe cwd s = from_credential H python_exe cwd s')
  (* step 1: the environment cannot be made *)
  /\ (forall p v s1 o w,
         lookup H (world s) venv = None ->
         find_compatible_python H
           (mkState (world s) (out s ++ "Creating virtual environment..." ++ nl)
                    (spawned s)) = (Ret (Some p, v), s1) ->
         p <> "" ->
         spawn H (mkCall (venv_call p venv) false false 60) (world s1) = (o, w) ->
         failed_child o = true ->
         exists s', ensure_venv H P s = (Exit 1, s'))
  /\ (forall s0 c s',
         ensure_venv H P (announced H P s0) = (Exit c, s') ->
         main H P s0 = (Exit c, s') /\ exit_status (main H P s0) = c)
  (* step 3: the SDK cannot be installed *)
  /\ (forall o w,
         spawn H (mkCall (sdk_install_call python_exe) false false 120) (world s)
           = (o, w) ->
         failed_child o = true ->
         exists s', install_sdk H python_exe s = (Exit 1, s'))
  /\ (forall s1 c s',
         is_sdk_installed H python_exe s = (Ret false, s1) ->
         install_sdk H python_exe s1 = (Exit c, s') ->
         from_sdk H python_exe cwd s = (Exit c, s')).
Proof.
  split; [|split; [|split; [|split; [|split]]]].
  - do 3 eexists. split; [apply upgrade_pip_run|]. split; [reflexivity|].
    rewrite from_pip_continues. now rewrite upgrade_pip_run.
  - destruct (ensure_python_dotenv_returns H python_exe s) as (b & s' & E).
    exists b, s'. split; [exact E|]. split.
    + pose proof (ensure_python_dotenv_quiet H python_exe s) as Hq.
      now rewrite E in Hq.
    + rewrite from_dotenv_continues. now rewrite E.
  - intros p v s1 o w Hl Hf Hp Hs Ho.
    destruct (ensure_venv_create s s1 p v Hl Hf Hp) as (o1 & o2 & ->).
    rewrite Hs, Ho. eauto.
  - intros s0 c s' E. rewrite main_announced, (bind_exit _ _ _ _ _ E). now split.
  - intros o w Hs Ho. rewrite install_sdk_run. cbv zeta. rewrite Hs.
    destruct o as [r|e]; cbn [failed_child] in Ho.
    + apply negb_true_iff in Ho. rewrite Ho. eauto.
    + eauto.
  - intros s1 c s' Ei Ex. unfold from_sdk.
    rewrite (bind_run _ _ _ _ _ Ei). cbn [negb].
    apply bind_exit. now apply bind_exit.
Qed.

(** *** A second run *)

Lemma ensure_python_dotenv_spawned (python_exe : string) (s : state World) :
  let probe := dotenv_probe_call python_exe in
  let install := mkCall (dotenv_install_call python_exe) false false 60 in
  spawned (snd (ensure_python_dotenv H python_exe s)) = (spawned s ++ [probe])%list \/
  spawned (snd (ensure_python_dotenv H python_exe s))
    = (spawned s ++ [probe; install])%list.
Proof.
  cbv zeta.
  unfold ensure_python_dotenv, try_except, bind, subprocess_run,
    subprocess_check_call, ret.
  case_spawn r e w; cbn [fst snd spawned]; [|now left].
  destruct (returncode r =? 0); cbn [fst snd spawned]; [now left|].
  right. case_spawn r' e' w'; cbn [fst snd spawned world out].
  - destruct (returncode r' =? 0); cbn [snd spawned];
      now rewrite <- app_assoc.
  - now rewrite <- app_assoc.
Qed.

Lemma from_credential_spawned (python_exe d : string) (s : state World) :
  spawned (snd (from_credential H python_exe d s)) = spawned s \/
  spawned (snd (from_credential H python_exe d s))
    = (spawned s ++ [verify_call python_exe d])%list.
Proof.
  destruct (check_env_file_cases d s) as [[k Hk] | [Hn | [e He]]].
  - right. rewrite (from_credential_key _ _ _ _ Hk), from_verify_run. cbv zeta.
    now destruct (verified _).
  - left. now rewrite (from_credential_absent _ _ _ Hn).
  - left. now rewrite (from_credential_raise _ _ _ _ He).
Qed.

(** C4: provisioning does no work twice.  When the environment directory
exists, [ensure_venv] hands back the interpreter inside it and leaves the
state as it was: no interpreter is looked for, no environment is made,
nothing is written.  When the import probe of the SDK succeeds, the sequence
goes straight on to the helper step.  So a run over an environment that
exists and holds the SDK starts no interpreter query, makes no environment
and installs no SDK: its children are the two import probes and, at most, the
installation of the helper and the verification. *)
Theorem provisioning_idempotent (s : state World) (n : node) :
  lookup H (world s) venv = Some n ->
  ensure_venv H P s = (Ret py0, s)
  /\ (forall python_exe s1 s2,
         is_sdk_installed H python_exe s1 = (Ret true, s2) ->
         spawned s2 = (spawned s1 ++ [sdk_probe_call python_exe])%list /\
         from_sdk H python_exe cwd s1 = from_dotenv H python_exe cwd s2)
  /\ (forall r w,
         spawn H (sdk_probe_call py0) (world s) = (Completed r, w) ->
         returncode r = 0 ->
         exists rest,
           spawned (snd (main H P s))
             = (spawned s ++ sdk_probe_call py0 :: dotenv_probe_call py0 :: rest)%list
           /\ forallb no_setup_work
                      (sdk_probe_call py0 :: dotenv_probe_call py0 :: rest) = true).
Proof.
  intros Hl. split; [|split].
  - eapply ensure_venv_reuse; eauto.
  - intros python_exe s1 s2 Ei. split.
    + rewrite is_sdk_installed_run in Ei. now injection Ei as _ <-.
    + unfold from_sdk. rewrite (bind_run _ _ _ _ _ Ei). cbn [negb].
      now rewrite (bind_run _ _ tt _ _ eq_refl).
  - intros r w Hs Hrc.
    rewrite main_announced.
    rewrite (bind_run _ _ py0 _ (announced H P s))
      by (eapply ensure_venv_reuse; exact Hl).
    rewrite from_pip_continues, upgrade_pip_run. cbn [snd].
    unfold from_sdk.
    rewrite (bind_run _ _ _ _ _ (is_sdk_installed_run H py0 _)).
    cbn [world out spawned announced snd]. 
    change (world (announced H P s)) with (world s).
    change (spawned (announced H P s)) with (spawned s).
    rewrite Hs. cbn [fst snd]. rewrite Hrc. cbn [Z.eqb negb].
    rewrite (bind_run _ _ tt _ _ eq_refl).
    rewrite from_dotenv_continues.
    match goal with
    | |- context [ensure_python_dotenv H py0 ?x] =>
        pose proof (ensure_python_dotenv_spawned py0 x) as Hd;
        pose proof (from_credential_spawned py0 cwd
                      (snd (ensure_python_dotenv H py0 x))) as Hc
    end.
    cbv zeta in Hd. cbn [spawned] in Hd.
    destruct Hd as [Hd | Hd]; destruct Hc as [Hc | Hc];
      rewrite Hc, Hd; rewrite <- ?app_assoc; cbn [app];
      eexists; (split; [reflexivity|]); reflexivity.
Qed.

End Sequence.

(** ** The script and the machine *)

Section Frame.

Context {World : Type}.
Variable H : Host World.
Variable P : Process.

Lemma replay_app (a b : list Call) (w : World) :
  replay H (a ++ b) w = replay H b (replay H a w).
Proof. apply fold_left_app. Qed.

Lemma only_children_refl (s : state World) : only_children H s s.
Proof. exists []. split; [now rewrite app_nil_r | reflexivity]. Qed.

Lemma only_children_trans (s1 s2 s3 : state World) :
  only_children H s1 s2 -> only_children H s2 s3 -> only_children H s1 s3.
Proof.
  intros (n1 & Hs1 & Hw1) (n2 & Hs2 & Hw2). exists (n1 ++ n2)%list. split.
  - now rewrite Hs2, Hs1, app_assoc.
  - now rewrite Hw2, Hw1, replay_app.
Qed.

Lemma only_children_spawn (c : Call) (s : state World) (o : string) :
  only_children H s
    (mkState (snd (spawn H c (world s))) o (spawned s ++ [c])).
Proof. exists [c]. now split. Qed.

Lemma only_children_out (s : state World) (o : string) :
  only_children H s (mkState (world s) o (spawned s)).
Proof. exists []. split; [now rewrite app_nil_r | reflexivity]. Qed.

Lemma tracked_ret {A} (a : A) : tracked H (ret a).
Proof. intros s. apply only_children_refl. Qed.

Lemma tracked_raise {A} (e : exn) : tracked H (@raise World A e).
Proof. intros s. apply only_children_refl. Qed.

Lemma tracked_exit {A} (c : Z) : tracked H (@sys_exit World A c).
Proof. intros s. apply only_children_refl. Qed.

Lemma tracked_print (line : string) : tracked H (print line).
Proof. intros s. apply only_children_out. Qed.

Lemma tracked_bind {A B} (m : M World A) (k : A -> M World B) :
  tracked H m -> (forall a, tracked H (k a)) -> tracked H (bind m k).
Proof.
  intros Hm Hk s. unfold bind. specialize (Hm s).
  destruct (m s) as [[a|c|e] s1]; cbn [snd] in *; auto.
  eapply only_children_trans; [exact Hm | apply Hk].
Qed.

Lemma tracked_try {A} (m : M World A) (h : exn -> M World A) :
  tracked H m -> (forall e, tracked H (h e)) -> tracked H (try_except m h).
Proof.
  intros Hm Hh s. unfold try_except. specialize (Hm s).
  destruct (m s) as [[a|c|e] s1]; cbn [snd] in *; auto.
  eapply only_children_trans; [exact Hm | apply Hh].
Qed.

Lemma tracked_path_exists (p : string) : tracked H (path_exists H p).
Proof.
  intros s. unfold path_exists.
  destruct (lookup H (world s) p); apply only_children_refl.
Qed.

Lemma tracked_open_lines (p : string) : tracked H (open_lines H p).
Proof.
  intros s. unfold open_lines.
  destruct (lookup H (world s) p) as [[t|]|]; apply only_children_refl.
Qed.

Lemma tracked_run (c : Call) : tracked H (subprocess_run H c).
Proof.
  intros s. unfold subprocess_run.
  pose proof (only_children_spawn c s (out s)) as Hc.
  destruct (spawn H c (world s)) as [[r|e] w]; exact Hc.
Qed.

Lemma tracked_check_call (argv : list string) (kw : bool) (tmo : Z) :
  tracked H (subprocess_check_call H argv kw tmo).
Proof.
  unfold subprocess_check_call. destruct kw; [apply tracked_raise|].
  intros s.
  pose proof (only_children_spawn (mkCall argv false false tmo) s) as Hc.
  destruct (spawn H (mkCall argv false false tmo) (world s)) as [[r|e] w];
    [destruct (returncode r =? 0)|]; apply Hc.
Qed.

Lemma tracked_item1 (l : list string) : tracked H (@item1 World l).
Proof.
  unfold item1. destruct (nth_error l 1); [apply tracked_ret | apply tracked_raise].
Qed.

(** One step of the decomposition of a computation into tracked parts. *)
Ltac track :=
  repeat
    match goal with
    | |- tracked _ (ret _) => apply tracked_ret
    | |- tracked _ (raise _) => apply tracked_raise
    | |- tracked _ (sys_exit _) => apply tracked_exit
    | |- tracked _ (print _) => apply tracked_print
    | |- tracked _ (path_exists _ _) => apply tracked_path_exists
    | |- tracked _ (open_lines _ _) => apply tracked_open_lines
    | |- tracked _ (subprocess_run _ _) => apply tracked_run
    | |- tracked _ (subprocess_check_call _ _ _ _) => apply tracked_check_call
    | |- tracked _ (item1 _) => apply tracked_item1
    | |- tracked _ (bind _ _) => apply tracked_bind; [|intros ?]
    | |- tracked _ (try_except _ _) => apply tracked_try; [|intros ?]
    | |- tracked _ (if ?b then _ else _) => destruct b
    | |- tracked _ (let (_, _) := ?p in _) => destruct p
    | |- tracked _ (match ?x with _ => _ end) => destruct x
    end.

Lemma tracked_find (cs : list string) :
  tracked H (find_compatible_python_in H cs).
Proof.
  induction cs as [|c cs IH]; cbn [find_compatible_python_in].
  - track.
  - apply tracked_bind; [unfold try_candidate; track|].
    intros [[p v]|]; [track | exact IH].
Qed.

Lemma tracked_scan (lines : list string) : tracked H (@scan_lines World lines).
Proof.
  induction lines as [|line rest IH]; cbn [scan_lines]; [track|].
  destruct (startswith _ _); [|exact IH].
  apply tracked_bind; [track|]. intros v.
  destruct (_ && _); [track | exact IH].
Qed.

Lemma tracked_main : tracked H (main H P).
Proof.
  unfold main. cbv zeta.
  do 3 (apply tracked_bind; [apply tracked_print | intros _]).
  apply tracked_bind.
  { unfold ensure_venv. apply tracked_bind; [track|]. intros [|]; [track|].
    apply tracked_bind; [track|]. intros _.
    apply tracked_bind; [apply tracked_find|]. intros [p v].
    destruct (falsy p); track. }
  intros python_exe.
  apply tracked_bind; [unfold upgrade_pip; track|]. intros _.
  apply tracked_bind; [unfold is_sdk_installed; track|]. intros installed.
  apply tracked_bind; [destruct installed; cbn [negb]; unfold install_sdk; track|].
  intros _.
  apply tracked_bind; [unfold ensure_python_dotenv; track|]. intros _.
  apply tracked_bind.
  { unfold check_env_file. apply tracked_bind; [track|]. intros [|]; cbn [negb]; [|track].
    apply tracked_bind; [track|]. intros lines. apply tracked_scan. }
  intros [has_key api_key].
  apply tracked_bind; [destruct has_key; cbn [negb]; unfold prompt_for_api_key; track|].
  intros _.
  apply tracked_bind; [unfold test_sdk_connection; track|]. intros ok.
  destruct ok; cbn [negb]; track.
Qed.

Lemma replay_preserves (p : string) (new : list Call) :
  (forall c w, In c new -> lookup H (snd (spawn H c w)) p = lookup H w p) ->
  forall w, lookup H (replay H new w) p = lookup H w p.
Proof.
  induction new as [|c new IH]; intros Hnew w; [reflexivity|].
  cbn [replay fold_left]. fold (replay H new (snd (spawn H c w))).
  rewrite IH.
  - apply Hnew. now left.
  - intros c' w' Hin. apply Hnew. now right.
Qed.

(** C8: the provisioner leaves the credential file alone.  Reading it
([check_env_file]) changes nothing at all, and the missing-credential path
([prompt_for_api_key]) only writes to standard output and exits.  Over a
whole run the machine changes through the children of the run and through
nothing else; so, the children leaving the credential file alone, what it
holds after the run is what it held before. *)
Theorem credential_file_untouched (s : state World) :
  let env := path_join H (get_user_cwd H P) ".env" in
  snd (check_env_file H (get_user_cwd H P) s) = s
  /\ (world (snd (@prompt_for_api_key World unit (get_user_cwd H P) s)) = world s /\
      spawned (snd (@prompt_for_api_key World unit (get_user_cwd H P) s)) = spawned s)
  /\ only_children H s (snd (main H P s))
  /\ (forall new,
         spawned (snd (main H P s)) = (spawned s ++ new)%list ->
         (forall c w, In c new -> lookup H (snd (spawn H c w)) env = lookup H w env) ->
         lookup H (world (snd (main H P s))) env = lookup H (world s) env).
Proof.
  cbv zeta. split; [|split; [|split]].
  - apply check_env_file_state.
  - now rewrite prompt_run.
  - apply tracked_main.
  - intros new Hnew Hframe.
    destruct (tracked_main s) as (new' & Hs & Hw).
    rewrite Hnew in Hs. apply app_inv_head in Hs. subst new'.
    rewrite Hw. now apply replay_preserves.
Qed.

End Frame.

(** ** The version test *)

Section Version.

Context {World : Type}.
Variable H : Host World.

Lemma version_accepted_spec (v : string) :
  version_accepted v = true <->
  occurs_in "Python 3.10" v \/ occurs_in "Python 3.11" v \/ occurs_in "Python 3.12" v.
Proof.
  unfold version_accepted. cbn [existsb].
  change ("Python 3." ++ str_of_nat 10) with "Python 3.10".
  change ("Python 3." ++ str_of_nat 11) with "Python 3.11".
  change ("Python 3." ++ str_of_nat 12) with "Python 3.12".
  rewrite !orb_true_iff, !contains_spec. intuition discriminate.
Qed.

(** C9: the version test of [find_compatible_python] is a substring test.  A
candidate whose version query ends with status zero is accepted exactly when
[Python 3.10], [Python 3.11] or [Python 3.12] occurs somewhere in its version
output, so an interpreter outside the accepted set can be accepted: the
version output [Python 3.100.0] passes, through [Python 3.10]. *)
Theorem version_test_is_substring_test
        (c : string) (s : state World) (r : CompletedProcess) (w : World) :
  spawn H (version_call c) (world s) = (Completed r, w) ->
  returncode r = 0 ->
  let version_output := strip (stdout r) in
  (fst (try_candidate H c s) = Ret (Some (c, version_output)) <->
   occurs_in "Python 3.10" version_output \/
   occurs_in "Python 3.11" version_output \/
   occurs_in "Python 3.12" version_output)
  /\ (fst (try_candidate H c s) = Ret (Some (c, version_output)) \/
      fst (try_candidate H c s) = Ret None)
  /\ version_accepted "Python 3.100.0" = true
  /\ (version_output = "Python 3.100.0" ->
      fst (try_candidate H c s) = Ret (Some (c, "Python 3.100.0"))).
Proof.
  intros Hs Hrc. cbv zeta.
  rewrite try_candidate_run, Hs. cbn [fst acceptable]. rewrite Hrc. cbn [Z.eqb andb].
  rewrite <- version_accepted_spec.
  destruct (version_accepted (strip (stdout r))) eqn:Ev.
  - repeat split; auto. intros ->. reflexivity.
  - repeat split; auto; try discriminate.
    intros Hx. rewrite Hx in Ev. discriminate.
Qed.

End Version.

(** ** Runs on the sample machine *)

Local Abbreviation host := Sample.host.
Local Abbreviation proc := Sample.proc.
Local Abbreviation start := Sample.start.

(** The three exit statuses, each on a machine that produces it. *)
Lemma main_exit_status_sample :
  exit_status (main host proc (start Sample.ready)) = 0 /\
  exit_status (main host proc (start Sample.keyless)) = 2 /\
  exit_status (main host proc (start Sample.bare)) = 1.
Proof.
  split; [|split].
  - apply (proj1 (proj2 (proj2 (main_exit_status host proc (start Sample.ready))))).
    exists (snd (provision host proc (start Sample.ready))), "abc123".
    repeat split; vm_compute; reflexivity.
  - apply (proj1 (proj2 (proj2 (proj2
             (main_exit_status host proc (start Sample.keyless)))))).
    exists (snd (provision host proc (start Sample.keyless))).
    repeat split; vm_compute; reflexivity.
  - apply (proj1 (proj2 (proj2 (proj2 (proj2 (proj2
             (main_exit_status host proc (start Sample.bare)))))))
             1 (snd (provision host proc (start Sample.bare)))).
    vm_compute; reflexivity.
Defined.

(** The placeholder and the missing file, side by side. *)
Lemma placeholder_same_as_missing_sample :
  fst (check_env_file host "/work" (start Sample.unconfigured)) = Ret (false, None) /\
  fst (check_env_file host "/work" (start Sample.keyless)) = Ret (false, None) /\
  exit_status (main host proc (start Sample.unconfigured)) = 2 /\
  exit_status (main host proc (start Sample.keyless)) = 2.
Proof.
  split; [|split; [|split]].
  - rewrite (proj1 (placeholder_same_as_missing host proc (start Sample.unconfigured))
               "/work" (start Sample.unconfigured)); [reflexivity|].
    right. exists "CARVER_API_KEY=your_api_key_here". split; [reflexivity | now left].
  - rewrite (proj1 (placeholder_same_as_missing host proc (start Sample.keyless))
               "/work" (start Sample.keyless)); [reflexivity|].
    left. reflexivity.
  - apply (proj2 (placeholder_same_as_missing host proc
                    (snd (provision host proc (start Sample.unconfigured))))
             (or_intror (ex_intro _ "CARVER_API_KEY=your_api_key_here"
                                  (conj eq_refl (or_introl eq_refl))))
             (start Sample.unconfigured) "/skill/.venv/bin/python").
    vm_compute; reflexivity.
  - apply (proj2 (placeholder_same_as_missing host proc
                    (snd (provision host proc (start Sample.keyless))))
             (or_introl eq_refl)
             (start Sample.keyless) "/skill/.venv/bin/python").
    vm_compute; reflexivity.
Defined.

(** The closing lines of a successful run and of a run without credential. *)
Lemma stdout_contract_sample :
  ends_with (nl ++ "VENV_PYTHON=/skill/.venv/bin/python" ++ nl ++ "CWD=/work" ++ nl)
            (out (snd (main host proc (start Sample.ready)))) /\
  ends_with (nl ++ "API_KEY_REQUIRED" ++ nl ++ "CWD=/work" ++ nl)
            (out (snd (main host proc (start Sample.fresh)))).
Proof.
  split.
  - apply (proj1 (stdout_contract host proc (start Sample.ready))).
    vm_compute; reflexivity.
  - apply (proj1 (proj2 (stdout_contract host proc (start Sample.fresh)))).
    vm_compute; reflexivity.
Defined.

(** A run over a complete environment: the environment is reused and the
children are the two probes and the verification. *)
Lemma provisioning_idempotent_sample :
  ensure_venv host proc (start Sample.ready)
    = (Ret "/skill/.venv/bin/python", start Sample.ready) /\
  exists rest,
    spawned (snd (main host proc (start Sample.ready)))
      = sdk_probe_call "/skill/.venv/bin/python"
          :: dotenv_probe_call "/skill/.venv/bin/python" :: rest /\
    forallb no_setup_work
      (sdk_probe_call "/skill/.venv/bin/python"
         :: dotenv_probe_call "/skill/.venv/bin/python" :: rest) = true.
Proof.
  pose proof (provisioning_idempotent host proc (start Sample.ready) Dir eq_refl)
    as (Hv & _ & Hrun).
  split; [exact Hv|].
  exact (Hrun (mkCompleted 0 "" "") Sample.ready eq_refl eq_refl).
Defined.

(** The first candidate has no executable, the second is accepted, the other
eleven are never queried. *)
Lemma find_compatible_python_sample :
  find_compatible_python host (start Sample.fresh) =
  (Ret (Some "python3.11", Some "Python 3.11.2"),
   mkState Sample.fresh ""
           [version_call "python3.12"; version_call "python3.11"]).
Proof.
  refine (proj1 (find_compatible_python_first_match host
                   ["python3.12"] "python3.11"
                   (skipn 2 candidates)
                   (start Sample.fresh) Sample.fresh Sample.fresh
                   (mkCompleted 0 ("Python 3.11.2" ++ nl) "")
                   _ eq_refl eq_refl eq_refl)).
  eapply Rejected_cons; [reflexivity | reflexivity | apply Rejected_nil].
Defined.

(** A verification that ends with status 1 is fatal. *)
Lemma verification_outcome_sample :
  fst (test_sdk_connection host "/skill/.venv/bin/python" "/work"
         (start Sample.refused)) = Ret false /\
  exit_status (from_verify host "/skill/.venv/bin/python" "/work"
                 (start Sample.refused)) = 1.
Proof.
  assert (Hf : fst (test_sdk_connection host "/skill/.venv/bin/python" "/work"
                      (start Sample.refused)) = Ret false)
    by (vm_compute; reflexivity).
  split; [exact Hf|].
  rewrite (proj1 (proj2 (proj2
             (verification_outcome host proc "/skill/.venv/bin/python" "/work"
                (start Sample.refused)))) Hf).
  reflexivity.
Defined.

(** The claim of the specification fails here: the child wrote a line on its
standard output and ended with status 1, [main] exits with status 1, and the
line is nowhere in what [main] wrote. *)
Lemma verification_stdout_not_forwarded :
  fst (spawn host (verify_call "/skill/.venv/bin/python" "/work") Sample.refused)
    = Completed (mkCompleted 1 "connection refused" "") /\
  exit_status (main host proc (start Sample.refused)) = 1 /\
  contains "connection refused"
           (out (snd (main host proc (start Sample.refused)))) = false.
Proof. vm_compute. repeat split. Qed.

(** Without an interpreter the run stops at step 1; without the package
index it stops at step 3. *)
Lemma gating_steps_sample :
  exit_status (main host proc (start Sample.bare)) = 1 /\
  (exists s', install_sdk host "/skill/.venv/bin/python" (start Sample.offline)
              = (Exit 1, s')).
Proof.
  pose proof (optional_steps_continue_gating_steps_stop host proc
                "/skill/.venv/bin/python" (start Sample.offline))
    as (_ & _ & _ & Hvenv & Hinstall & _).
  split.
  - apply (Hvenv (start Sample.bare) 1
             (snd (ensure_venv host proc (announced host proc (start Sample.bare))))).
    vm_compute; reflexivity.
  - apply (Hinstall (Sample.done 1 "" "ERROR: No matching distribution found")
                    Sample.offline); reflexivity.
Defined.

(** The credential file of the sample machine after a full run. *)
Lemma credential_file_untouched_sample :
  lookup host (world (snd (main host proc (start Sample.ready)))) "/work/.env"
  = Some (File ("CARVER_API_KEY=abc123" ++ nl)).
Proof.
  refine (eq_trans
            (proj2 (proj2 (proj2
               (credential_file_untouched host proc (start Sample.ready))))
               [sdk_probe_call "/skill/.venv/bin/python";
                dotenv_probe_call "/skill/.venv/bin/python";
                verify_call "/skill/.venv/bin/python" "/work"] _ _) _).
  - vm_compute; reflexivity.
  - intros c w [<- | [<- | [<- | []]]]; [reflexivity | reflexivity |].
    cbn [spawn host Sample.host Sample.sample_spawn args verify_call].
    destruct (negb _); [reflexivity|].
    destruct (Sample.assoc _ _); reflexivity.
  - reflexivity.
Defined.

(** An interpreter of version 3.100 is taken for a compatible one. *)
Lemma version_test_sample :
  fst (try_candidate host "python3" (start Sample.futuristic))
  = Ret (Some ("python3", "Python 3.100.0")).
Proof.
  exact (proj2 (proj2 (proj2
           (version_test_is_substring_test host "python3" (start Sample.futuristic)
              (mkCompleted 0 ("Python 3.100.0" ++ nl) "") Sample.futuristic
              eq_refl eq_refl))) eq_refl).
Defined.

(** The key is that of the fourth line: the comment, the placeholder and the
empty value are passed over, the blanks are trimmed, the later [=] kept. *)
Lemma check_env_file_sample :
  check_env_file host "/work" (start Sample.layered)
  = (Ret (true, Some "ab=cd=="), start Sample.layered).
Proof.
  refine (proj1 (proj2
            (check_env_file_first_valid_key host "/work" _ (start Sample.layered)
               eq_refl))
            ["# credentials" ++ nl;
             "CARVER_API_KEY=your_api_key_here" ++ nl;
             "CARVER_API_KEY=" ++ nl]
            ("  CARVER_API_KEY= ab=cd== " ++ nl)
            ["CARVER_API_KEY=later" ++ nl]
            "ab=cd==" eq_refl _ eq_refl).
  intros l [<- | [<- | [<- | []]]]; reflexivity.
Defined.

(** * Further properties of the script *)

(** ** Trimming *)

Lemma rstrip_cons (c : ascii) (t : string) :
  rstrip (String c t) =
  match rstrip t with
  | EmptyString => if is_space c then EmptyString else String c EmptyString
  | String c' t' => String c (String c' t')
  end.
Proof. reflexivity. Qed.

Lemma rstrip_idem (s : string) : rstrip (rstrip s) = rstrip s.
Proof.
  induction s as [|c t IH]; [reflexivity|].
  rewrite rstrip_cons. destruct (rstrip t) as [|c' t'] eqn:E.
  - destruct (is_space c) eqn:Ec; [reflexivity|].
    rewrite rstrip_cons. cbn [rstrip]. now rewrite Ec.
  - rewrite rstrip_cons, IH. reflexivity.
Qed.

Lemma lstrip_head (s : string) (c : ascii) (t : string) :
  lstrip s = String c t -> is_space c = false.
Proof.
  induction s as [|a s IH]; cbn [lstrip]; [discriminate|].
  destruct (is_space a) eqn:Ea; [exact IH|].
  intros [= <- <-]. exact Ea.
Qed.

Lemma rstrip_keeps_head (c : ascii) (t : string) :
  is_space c = false -> exists t', rstrip (String c t) = String c t'.
Proof.
  intros Ec. rewrite rstrip_cons. destruct (rstrip t) as [|c' t'].
  - rewrite Ec. now exists "".
  - now exists (String c' t').
Qed.

Lemma strip_idem (s : string) : strip (strip s) = strip s.
Proof.
  unfold strip. destruct (lstrip s) as [|c t] eqn:E; [reflexivity|].
  destruct (rstrip_keeps_head c t (lstrip_head s c t E)) as [t' Ht].
  rewrite Ht. cbn [lstrip]. rewrite (lstrip_head s c t E).
  rewrite <- Ht. apply rstrip_idem.
Qed.

(** ** The key [check_env_file] hands back *)

Lemma first_key_some (lines : list string) (k : string) :
  first_key lines = Some k ->
  exists line, In line lines /\ key_of_line line = Some k.
Proof.
  induction lines as [|l lines IH]; cbn [first_key]; [discriminate|].
  destruct (key_of_line l) as [k'|] eqn:E.
  - intros [= ->]. exists l. split; [now left | exact E].
  - intros Hk. destruct (IH Hk) as (line & Hin & Hl).
    exists line. split; [now right | exact Hl].
Qed.

Lemma key_of_line_trimmed (line k : string) :
  key_of_line line = Some k -> k <> "" /\ k <> placeholder /\ trimmed k.
Proof.
  unfold key_of_line, trimmed.
  destruct (startswith (strip line) "CARVER_API_KEY="); [|discriminate].
  destruct (cut "=" line) as [[a v]|]; [|discriminate].
  destruct (String.eqb_spec (strip v) "") as [|Hne]; cbn [orb]; [discriminate|].
  destruct (String.eqb_spec (strip v) placeholder) as [|Hnp]; [discriminate|].
  intros [= <-]. repeat split; auto. apply strip_idem.
Qed.

(** X1: whatever the credential file holds, a key [check_env_file] returns
is usable as it stands: it is not empty, it is not the placeholder, and it
has no blank at either end; and the flag is [True] exactly when a key comes
with it. *)
Theorem check_env_file_key_usable {World} (H : Host World) (d : string)
        (s s' : state World) (has_key : bool) (api_key : option string) :
  check_env_file H d s = (Ret (has_key, api_key), s') ->
  (has_key = true <-> api_key <> None)
  /\ (forall key, api_key = Some key ->
                  key <> "" /\ key <> placeholder /\ trimmed key).
Proof.
  intros Hc.
  destruct (lookup H (world s) (path_join H d ".env")) as [[t|]|] eqn:Hl.
  - rewrite (check_env_file_text H d t s Hl) in Hc.
    destruct (first_key (readlines t)) as [k|] eqn:Ek;
      cbn [key_result] in Hc; injection Hc as <- <- <-.
    + split; [split; [discriminate | reflexivity]|].
      intros key [= <-].
      destruct (first_key_some _ _ Ek) as (line & _ & Hk).
      now apply (key_of_line_trimmed line).
    + split; [split; [discriminate | congruence] | discriminate].
  - rewrite (check_env_file_dir H d s Hl) in Hc. discriminate.
  - rewrite (check_env_file_missing H d s Hl) in Hc. injection Hc as <- <- <-.
    split; [split; [discriminate | congruence] | discriminate].
Qed.

(** ** What a run starts *)

Section Children.

Context {World : Type}.
Variable H : Host World.
Variable Q : Call -> Prop.

Lemma children_in_pure {A} (R : A -> Prop) (m : M World A) :
  (forall s, spawned (snd (m s)) = spawned s) ->
  (forall s a, fst (m s) = Ret a -> R a) ->
  children_in Q R m.
Proof.
  intros Hs Hr s. split; [|apply Hr].
  exists []. rewrite Hs, app_nil_r. now split.
Qed.

Lemma children_in_ret {A} (R : A -> Prop) (a : A) :
  R a -> children_in Q R (@ret World A a).
Proof.
  intros Ha. apply children_in_pure; [reflexivity|].
  now intros s a' [= <-].
Qed.

Lemma children_in_raise {A} (R : A -> Prop) (e : exn) :
  children_in Q R (@raise World A e).
Proof. apply children_in_pure; [reflexivity | discriminate]. Qed.

Lemma children_in_exit {A} (R : A -> Prop) (c : Z) :
  children_in Q R (@sys_exit World A c).
Proof. apply children_in_pure; [reflexivity | discriminate]. Qed.

Lemma children_in_print (line : string) :
  children_in Q (fun _ => True) (@print World line).
Proof.
  intros s. split; [|auto]. exists []. cbn [print snd spawned].
  rewrite app_nil_r. now split.
Qed.


Lemma children_in_bind {A B} (R : A -> Prop) (R' : B -> Prop)
      (m : M World A) (k : A -> M World B) :
  children_in Q R m ->
  (forall a, R a -> children_in Q R' (k a)) ->
  children_in Q R' (bind m k).
Proof.
  intros Hm Hk s. unfold bind. destruct (Hm s) as [(n1 & Hs1 & Hq1) Ha].
  destruct (m s) as [[a|c|e] s1]; cbn [fst snd] in *.
  - destruct (Hk a (Ha a eq_refl) s1) as [(n2 & Hs2 & Hq2) Hb].
    split; [|exact Hb].
    exists (n1 ++ n2)%list. split.
    + now rewrite Hs2, Hs1, app_assoc.
    + apply Forall_app. now split.
  - split; [eauto | discriminate].
  - split; [eauto | discriminate].
Qed.

Lemma children_in_try {A} (R : A -> Prop) (m : M World A) (h : exn -> M World A) :
  children_in Q R m ->
  (forall e, children_in Q R (h e)) ->
  children_in Q R (try_except m h).
Proof.
  intros Hm Hh s. unfold try_except. destruct (Hm s) as [(n1 & Hs1 & Hq1) Ha].
  destruct (m s) as [[a|c|e] s1]; cbn [fst snd] in *.
  - split; [eauto | exact Ha].
  - split; [eauto | discriminate].
  - destruct (Hh e s1) as [(n2 & Hs2 & Hq2) Hb]. split; [|exact Hb].
    exists (n1 ++ n2)%list. split.
    + now rewrite Hs2, Hs1, app_assoc.
    + apply Forall_app. now split.
Qed.

Lemma children_in_path_exists (p : string) :
  children_in Q (fun _ => True) (path_exists H p).
Proof.
  apply children_in_pure; [|auto].
  intros s. unfold path_exists. now destruct (lookup H (world s) p).
Qed.

Lemma children_in_open_lines (p : string) :
  children_in Q (fun _ => True) (open_lines H p).
Proof.
  apply children_in_pure; [|auto].
  intros s. unfold open_lines. now destruct (lookup H (world s) p) as [[t|]|].
Qed.

Lemma children_in_item1 (l : list string) :
  children_in Q (fun _ => True) (@item1 World l).
Proof.
  apply children_in_pure; [|auto].
  intros s. unfold item1. now destruct (nth_error l 1).
Qed.

Lemma children_in_run (c : Call) :
  Q c -> children_in Q (fun _ => True) (subprocess_run H c).
Proof.
  intros Hq s. split; [|auto]. exists [c]. unfold subprocess_run.
  destruct (spawn H c (world s)) as [[r|e] w]; cbn [snd spawned]; auto.
Qed.

Lemma children_in_check_call (argv : list string) (kw : bool) (tmo : Z) :
  (kw = false -> Q (mkCall argv false false tmo)) ->
  children_in Q (fun _ => True) (subprocess_check_call H argv kw tmo).
Proof.
  intros Hq. unfold subprocess_check_call. destruct kw.
  - apply children_in_raise.
  - intros s. split; [|auto]. exists [mkCall argv false false tmo].
    destruct (spawn H (mkCall argv false false tmo) (world s)) as [[r|e] w];
      [destruct (returncode r =? 0)|]; cbn [snd spawned]; auto.
Qed.

End Children.

(** Splits a computation into its library calls. *)
Ltac children :=
  repeat
    match goal with
    | |- children_in _ _ (ret _) => apply children_in_ret; try exact I
    | |- children_in _ _ (raise _) => apply children_in_raise
    | |- children_in _ _ (sys_exit _) => apply children_in_exit
    | |- children_in _ _ (print _) => apply children_in_print
    | |- children_in _ _ (path_exists _ _) => apply children_in_path_exists
    | |- children_in _ _ (open_lines _ _) => apply children_in_open_lines
    | |- children_in _ _ (item1 _) => apply children_in_item1
    | |- children_in _ _ (bind _ _) =>
        eapply children_in_bind with (R := fun _ => True); [|intros ? _]
    | |- children_in _ _ (try_except _ _) => apply children_in_try; [|intros ?]
    | |- children_in _ _ (if ?b then _ else _) => destruct b
    | |- children_in _ _ (let (_, _) := ?p in _) => destruct p
    end.

Section MainChildren.

Context {World : Type}.
Variable H : Host World.
Variable P : Process.

Local Abbreviation cwd := (get_user_cwd H P).
Local Abbreviation venv := (get_venv_path H P).
Local Abbreviation py0 := (get_venv_python H P (get_venv_path H P)).

Lemma children_in_find (Q : Call -> Prop) (all cs : list string) :
  (forall c, In c cs -> In c all) ->
  (forall c, In c all -> Q (version_call c)) ->
  children_in Q (fun pv => forall p, fst pv = Some p -> In p all)
              (find_compatible_python_in H cs).
Proof.
  intros Hincl Hq. induction cs as [|c cs IH]; cbn [find_compatible_python_in].
  - apply children_in_ret. discriminate.
  - apply children_in_bind
      with (R := fun r => forall p v, r = Some (p, v) -> p = c).
    + intros s. rewrite try_candidate_run. cbn [fst snd spawned]. split.
      * exists [version_call c]. split; [reflexivity|].
        constructor; [|constructor]. apply Hq, Hincl. now left.
      * intros a [= <-] p v.
        destruct (acceptable _); [now intros [= <- _] | discriminate].
    + intros [[p v]|] Hr.
      * apply children_in_ret. cbn [fst]. intros p' [= <-].
        rewrite (Hr p v eq_refl). apply Hincl. now left.
      * apply IH. intros c' Hin. apply Hincl. now right.
Qed.

Lemma candidates_not_empty (p : string) : In p candidates -> p <> "".
Proof.
  unfold candidates. cbn [In].
  intros Hin ->. repeat (destruct Hin as [Hin | Hin]; [discriminate|]).
  exact Hin.
Qed.

Lemma children_in_ensure_venv :
  children_in (main_child H P) (fun p => p = py0) (ensure_venv H P).
Proof.
  unfold ensure_venv. cbv zeta.
  eapply children_in_bind with (R := fun _ => True); [children|].
  intros [|] _; [now apply children_in_ret|].
  eapply children_in_bind with (R := fun _ => True); [children|]. intros ? _.
  eapply children_in_bind.
  - apply (children_in_find (main_child H P) candidates candidates); [auto|].
    intros c Hc. left. now exists c.
  - intros [[p|] v] Hp; cbn [falsy].
    + specialize (Hp p eq_refl). cbn [fst] in Hp.
      destruct (String.eqb_spec p ""); [children|].
      eapply children_in_bind with (R := fun _ => True); [children|]. intros ? _.
      apply children_in_try.
      * eapply children_in_bind with (R := fun _ => True).
        -- apply children_in_check_call. intros _. right; left. now exists p.
        -- intros ? _.
           eapply children_in_bind with (R := fun _ => True); [children|].
           intros ? _. now apply children_in_ret.
      * intros e. children.
    + children.
Qed.

(** X2: [main] starts nothing but the children of its steps.  Every child of
a run is a version query of one of the thirteen candidates, the making of the
environment by one of them, or, run by the interpreter of the environment, an
import probe, an installation of the SDK or of the helper, or the
verification.  So every child has a time allowance (5, 30, 60 or 120
seconds), and no run ever starts the pip upgrade. *)
Theorem main_children (s : state World) :
  exists new,
    spawned (snd (main H P s)) = (spawned s ++ new)%list
    /\ Forall (main_child H P) new
    /\ Forall (fun c => In (timeout c) [5; 30; 60; 120]) new
    /\ Forall (fun c => forall python_exe,
                   args c <> [python_exe; "-m"; "pip"; "install"; "--upgrade"; "pip"])
              new.
Proof.
  assert (Hm : children_in (main_child H P) (fun _ : unit => True) (main H P)).
  { unfold main. cbv zeta.
    do 3 (eapply children_in_bind with (R := fun _ => True);
          [apply children_in_print | intros ? _]).
    eapply children_in_bind; [apply children_in_ensure_venv|].
    intros python_exe ->.
    eapply children_in_bind with (R := fun _ => True).
    { unfold upgrade_pip.
      eapply children_in_bind with (R := fun _ => True); [children|]. intros ? _.
      apply children_in_try; [|intros e; children].
      eapply children_in_bind with (R := fun _ => True);
        [apply children_in_check_call; discriminate | intros ? _; children]. }
    intros ? _.
    eapply children_in_bind with (R := fun _ => True).
    { unfold is_sdk_installed. apply children_in_try; [|intros e; children].
      eapply children_in_bind with (R := fun _ => True);
        [apply children_in_run | intros r _; children].
      right; right; left. reflexivity. }
    intros installed _.
    eapply children_in_bind with (R := fun _ => True).
    { destruct installed; cbn [negb]; [children|].
      eapply children_in_bind with (R := fun _ => True); [|intros ? _; children].
      unfold install_sdk.
      eapply children_in_bind with (R := fun _ => True); [children|]. intros ? _.
      apply children_in_try; [|intros e; children].
      eapply children_in_bind with (R := fun _ => True);
        [apply children_in_check_call | intros ? _; children].
      intros _. right; right; right; left. reflexivity. }
    intros ? _.
    eapply children_in_bind with (R := fun _ => True).
    { unfold ensure_python_dotenv. apply children_in_try; [|intros e; children].
      eapply children_in_bind with (R := fun _ => True).
      - apply children_in_run. do 4 right. left. reflexivity.
      - intros r _. destruct (returncode r =? 0); [children|].
        eapply children_in_bind with (R := fun _ => True);
          [apply children_in_check_call | intros ? _; children].
        intros _. do 5 right. left. reflexivity. }
    intros ? _.
    eapply children_in_bind with (R := fun _ => True).
    { apply children_in_pure; [|auto].
      intros s0. now rewrite check_env_file_state. }
    intros [has_key api_key] _.
    eapply children_in_bind with (R := fun _ => True).
    { destruct has_key; cbn [negb]; [children|].
      apply children_in_pure; [|auto]. intros s0. now rewrite prompt_run. }
    intros ? _.
    eapply children_in_bind with (R := fun _ => True).
    { unfold test_sdk_connection. apply children_in_try; [|intros e; children].
      eapply children_in_bind with (R := fun _ => True).
      - apply children_in_run. do 6 right. reflexivity.
      - intros r _. destruct (_ && _); children. }
    intros ok _. destruct ok; cbn [negb]; children. }
  destruct (Hm s) as [(new & Hs & Hq) _].
  exists new. split; [exact Hs|]. split; [exact Hq|].
  split; eapply Forall_impl; try exact Hq; cbv beta.
  - intros c [(cand & _ & ->) | [(cand & _ & ->) | [-> | [-> | [-> | [-> | ->]]]]]];
      cbn [timeout version_call sdk_probe_call dotenv_probe_call verify_call In];
      auto 6.
  - intros c Hc python_exe.
    destruct Hc
      as [(cand & _ & ->) | [(cand & _ & ->) | [-> | [-> | [-> | [-> | ->]]]]]];
      cbn [args version_call sdk_probe_call dotenv_probe_call verify_call
                venv_call sdk_install_call dotenv_install_call];
      discriminate.
Qed.

End MainChildren.

(** ** The verification child *)

Section Verification.

Context {World : Type}.
Variable H : Host World.
Variable P : Process.

Local Abbreviation cwd := (get_user_cwd H P).
Local Abbreviation venv := (get_venv_path H P).
Local Abbreviation py0 := (get_venv_python H P (get_venv_path H P)).



(** ** Unhandled exceptions *)


End Verification.

(** ** The making of the environment *)

Section Environment.

Context {World : Type}.
Variable H : Host World.
Variable P : Process.

Local Abbreviation venv := (get_venv_path H P).
Local Abbreviation py0 := (get_venv_python H P (get_venv_path H P)).

(** X5: without an interpreter there is no environment.  When the
environment directory is missing and each of the thirteen candidates is
rejected, [ensure_venv] has queried the thirteen in order and nothing else,
writes the installation advice, and exits with status 1; the making of an
environment is not attempted. *)
Theorem ensure_venv_without_interpreter (s : state World) (w1 : World) :
  lookup H (world s) venv = None ->
  Rejected H candidates (world s) w1 ->
  ensure_venv H P s =
  (Exit 1,
   mkState w1
           (out s ++ "Creating virtual environment..." ++ nl ++ remediation)
           (spawned s ++ map version_call candidates)).
Proof.
  intros Hl HR.
  unfold ensure_venv. cbv zeta. unfold bind at 1, path_exists. rewrite Hl.
  rewrite bind_print. unfold bind at 1, find_compatible_python.
  rewrite (find_in_rejected H candidates _ w1) by exact HR.
  cbn [falsy world out spawned].
  repeat (rewrite bind_print; cbn [world out spawned]).
  unfold sys_exit, remediation. cbn [String.concat].
  rewrite !append_assoc, append_nil_r. reflexivity.
Qed.

(** X6: the environment is made by the interpreter the search selected.
When the directory is missing, the candidates before [c] are rejected, [c] is
accepted and its [-m venv] child ends with status zero, [ensure_venv] hands
back the interpreter inside the new environment, having started the version
queries up to [c] and then that one child, with 60 seconds to finish. *)
Theorem ensure_venv_builds_with_first_match
        (pre : list string) (c : string) (post : list string)
        (s : state World) (w1 w2 w3 : World) (r r' : CompletedProcess) :
  lookup H (world s) venv = None ->
  candidates = (pre ++ c :: post)%list ->
  Rejected H pre (world s) w1 ->
  spawn H (version_call c) w1 = (Completed r, w2) ->
  returncode r = 0 ->
  version_accepted (strip (stdout r)) = true ->
  spawn H (mkCall (venv_call c venv) false false 60) w2 = (Completed r', w3) ->
  returncode r' = 0 ->
  exists text,
    ensure_venv H P s =
    (Ret py0,
     mkState w3 (out s ++ text)
             (spawned s ++ map version_call (pre ++ [c])
                        ++ [mkCall (venv_call c venv) false false 60])).
Proof.
  intros Hl Hcs HR Hs Hrc Hv Hs' Hrc'.
  assert (Hne : c <> "").
  { apply candidates_not_empty. rewrite Hcs. apply in_elt. }
  pose (s0 := mkState (world s) (out s ++ "Creating virtual environment..." ++ nl)
                      (spawned s)).
  assert (Hf : find_compatible_python H s0 =
               (Ret (Some c, Some (strip (stdout r))),
                mkState w2 (out s0) (spawned s0 ++ map version_call (pre ++ [c])))).
  { unfold find_compatible_python. rewrite Hcs.
    eapply find_in_first; eauto. cbn [acceptable]. now rewrite Hrc, Hv. }
  destruct (ensure_venv_create H P s _ c _ Hl Hf Hne) as (o1 & o2 & ->).
  cbn [world out spawned s0]. rewrite Hs'.
  cbn [failed_child]. rewrite Hrc'. cbn [Z.eqb negb].
  eexists. rewrite append_assoc, <- app_assoc. reflexivity.
Qed.

(** ** The optional steps *)

(** X7: [upgrade_pip] never upgrades pip.  It hands [capture_output=True]
to [check_call], which does not take it: the call raises [TypeError] before
a child exists.  So in every state the step starts no child, leaves the
machine as it is, writes its progress line and the warning with the text of
that error, and returns [False]. *)
Theorem upgrade_pip_never_upgrades (python_exe : string) (s : state World) :
  exists msg,
    upgrade_pip H python_exe s =
    (Ret false,
     mkState (world s)
             (out s ++ "Upgrading pip..." ++ nl
                    ++ "WARNING: Could not upgrade pip: "
                    ++ describe H (TypeError msg) ++ nl)
             (spawned s)).
Proof.
  eexists. unfold upgrade_pip. rewrite bind_print.
  unfold try_except, bind, subprocess_check_call, raise, print, ret.
  cbn [world out spawned]. rewrite !append_assoc. reflexivity.
Qed.

Lemma ensure_python_dotenv_run (python_exe : string) (s : state World) :
  let probe := dotenv_probe_call python_exe in
  let install := mkCall (dotenv_install_call python_exe) false false 60 in
  ensure_python_dotenv H python_exe s =
  match spawn H probe (world s) with
  | (Failed e, w) => (Ret false, mkState w (out s) (spawned s ++ [probe]))
  | (Completed r, w) =>
      if returncode r =? 0
      then (Ret true, mkState w (out s) (spawned s ++ [probe]))
      else match spawn H install w with
           | (Completed r', w') =>
               (Ret (returncode r' =? 0),
                mkState w' (out s ++ stdout r') (spawned s ++ [probe; install]))
           | (Failed e, w') =>
               (Ret false, mkState w' (out s) (spawned s ++ [probe; install]))
           end
  end.
Proof.
  cbv zeta.
  unfold ensure_python_dotenv, try_except, bind, subprocess_run,
    subprocess_check_call, ret.
  case_spawn r e w; cbn [fst snd world out spawned]; [|reflexivity].
  destruct (returncode r =? 0); [reflexivity|].
  cbn [fst snd world out spawned].
  case_spawn r' e' w'; cbn [fst snd world out spawned]; rewrite <- app_assoc;
    [destruct (returncode r' =? 0)|]; reflexivity.
Qed.

(** Propositional bookkeeping for the case analyses below. *)
Ltac crush :=
  repeat match goal with
    | |- _ /\ _ => split
    | |- _ <-> _ => split
    | |- ~ _ => intro
    | |- _ -> _ => intro
    | |- forall _, _ => intro
    | Hx : exists _, _ |- _ => destruct Hx
    | Hx : _ /\ _ |- _ => destruct Hx
    | Hx : _ \/ _ |- _ => destruct Hx
    | Hx : Completed _ = Completed _ |- _ => injection Hx as Hx; subst
    end;
  try congruence; try reflexivity;
  try solve [exfalso; eauto]; try solve [eauto 10].

(** X8: when the helper is installed.  [ensure_python_dotenv] starts the
installation exactly when its import probe ran to the end with a non-zero
status; a probe that raises (a timeout, say) makes the step return [False]
without any installation.  The step returns [True] exactly when the probe
ended with status zero or the installation it then started did. *)
Theorem ensure_python_dotenv_outcome (python_exe : string) (s : state World) :
  let probe := dotenv_probe_call python_exe in
  let install := mkCall (dotenv_install_call python_exe) false false 60 in
  let o := fst (spawn H probe (world s)) in
  let w := snd (spawn H probe (world s)) in
  let o' := fst (spawn H install w) in
  let s' := snd (ensure_python_dotenv H python_exe s) in
  (spawned s' = (spawned s ++ [probe; install])%list <->
   exists r, o = Completed r /\ returncode r <> 0)
  /\ (spawned s' = (spawned s ++ [probe])%list <->
      ~ exists r, o = Completed r /\ returncode r <> 0)
  /\ (fst (ensure_python_dotenv H python_exe s) = Ret true <->
      (exists r, o = Completed r /\ returncode r = 0) \/
      (exists r r', o = Completed r /\ returncode r <> 0 /\
                    o' = Completed r' /\ returncode r' = 0))
  /\ (forall e, o = Failed e ->
                ensure_python_dotenv H python_exe s =
                (Ret false, mkState w (out s) (spawned s ++ [probe]))).
Proof.
  cbv zeta.
  assert (Hlen : forall (l : list Call) a b,
             (l ++ [a; b])%list = (l ++ [a])%list -> False).
  { intros l a b E. apply app_inv_head in E. discriminate. }
  assert (Hlen' : forall (l : list Call) a b,
             (l ++ [a])%list = (l ++ [a; b])%list -> False).
  { intros l a b E. apply app_inv_head in E. discriminate. }
  rewrite ensure_python_dotenv_run. cbv zeta.
  destruct (spawn H (dotenv_probe_call python_exe) (world s)) as [[r|e] w];
    cbn [fst snd]; [|crush].
  destruct (Z.eqb_spec (returncode r) 0) as [Hz|Hnz]; cbn [fst snd spawned];
    [crush|].
  destruct (spawn H _ w) as [[r'|e'] w']; cbn [fst snd spawned]; [|crush].
  destruct (Z.eqb_spec (returncode r') 0) as [Hz'|Hnz']; crush.
Qed.

End Environment.

(** * The manual setup script *)

Lemma bind_raise {W A B} (m : M W A) (k : A -> M W B) (e : exn)
      (s s1 : state W) :
  m s = (Raise e, s1) -> bind m k s = (Raise e, s1).
Proof. intros E. unfold bind. now rewrite E. Qed.

Section SetupRuns.

Context {World : Type}.
Variable H : Host World.
Variable L : Setup.Library World.
Variable P : Process.
Variable Y : Setup.Sys.

Local Abbreviation env := (path_join H (os_getcwd P) ".env").

Lemma key_line_found_spec (lines : list string) :
  Setup.key_line_found lines = true <->
  exists line, In line lines /\ startswith (strip line) "CARVER_API_KEY=" = true.
Proof.
  induction lines as [|l lines IH]; cbn [Setup.key_line_found].
  - split; [discriminate | intros (line & [] & _)].
  - destruct (startswith (strip l) "CARVER_API_KEY=") eqn:E.
    + split; [|reflexivity]. intros _. exists l. split; [now left | exact E].
    + rewrite IH. split.
      * intros (line & Hin & Hp). exists line. split; [now right | exact Hp].
      * intros (line & [<- | Hin] & Hp); [congruence|]. now exists line.
Qed.

Lemma create_venv_returns (venv_path : string) (s : state World) :
  exists b s', Setup.create_venv H L venv_path s = (Ret b, s').
Proof.
  unfold Setup.create_venv. rewrite bind_print.
  unfold try_except, bind at 1, Setup.venv_create_with_pip.
  cbn [world out spawned].
  destruct (Setup.venv_create L venv_path (world s)) as [[e|] w].
  - rewrite bind_print. unfold ret. eauto.
  - rewrite bind_print. unfold ret. eauto.
Qed.

Lemma setup_venv_inside (s : state World) :
  Setup.is_venv Y = true ->
  Setup.setup_venv H L P Y s =
  (Ret (Some (Setup.executable Y), true),
   mkState (world s) (out s ++ "✅ Already running in a virtual environment" ++ nl)
           (spawned s)).
Proof. intros Hv. unfold Setup.setup_venv. now rewrite Hv. Qed.

Lemma setup_venv_outside (s : state World) :
  Setup.is_venv Y = false ->
  exists p s', Setup.setup_venv H L P Y s = (Ret (p, false), s').
Proof.
  intros Hv. unfold Setup.setup_venv. rewrite Hv. rewrite bind_print.
  cbv zeta. unfold bind at 1, path_exists. cbn [world out spawned].
  assert (Hrest : forall s1,
             exists p s',
               (e' <- path_exists H
                        (get_venv_python H P (path_join H (os_getcwd P) ".venv")) ;;
                if negb e' then
                  print ("❌ Virtual environment Python not found at "
                         ++ get_venv_python H P (path_join H (os_getcwd P) ".venv")) ;;
                  ret (None, false)
                else
                  print (nl ++ "📝 To activate the virtual environment:") ;;
                  (if (sys_platform P =? "win32")%string
                   then print ("   " ++ path_join H (os_getcwd P) ".venv"
                               ++ "\Scripts\activate")
                   else print ("   source " ++ path_join H (os_getcwd P) ".venv"
                               ++ "/bin/activate")) ;;
                  print (nl ++ "⚠️  Please activate the virtual environment and run this script again.") ;;
                  ret (Some (get_venv_python H P
                               (path_join H (os_getcwd P) ".venv")), false)) s1
               = (Ret (p, false), s' : state World)).
  { intros s1. unfold bind at 1, path_exists.
    destruct (lookup H (world s1) _); cbn [negb].
    - rewrite bind_print. destruct (sys_platform P =? "win32")%string;
        rewrite !bind_print; unfold ret; eauto.
    - rewrite bind_print. unfold ret. eauto. }
  destruct (lookup H (world s) (path_join H (os_getcwd P) ".venv")).
  - unfold bind at 1. rewrite bind_print. unfold ret at 1. cbn [negb].
    apply Hrest.
  - unfold bind at 1.
    destruct (create_venv_returns (path_join H (os_getcwd P) ".venv")
                (mkState (world s) (out s ++ "⚠️  Not in a virtual environment" ++ nl)
                         (spawned s))) as (b & s1 & ->).
    destruct b; cbn [negb]; [apply Hrest | unfold ret; eauto].
Qed.

Lemma install_sdk_world (s : state World) :
  exists text,
    Setup.install_sdk H L Y s =
    (install_result (fst (Setup.check_call_piped L (Setup.install_call Y) (world s))),
     mkState (snd (Setup.check_call_piped L (Setup.install_call Y) (world s)))
             (out s ++ text) (spawned s)).
Proof.
  unfold Setup.install_sdk. rewrite bind_print.
  unfold Setup.try_except_called_process_error, bind at 1,
    Setup.subprocess_check_call_piped.
  cbn [world out spawned].
  destruct (Setup.check_call_piped L (Setup.install_call Y) (world s)) as [[r|e] w];
    cbn [fst snd install_result].
  - destruct (returncode r =? 0).
    + rewrite bind_print. unfold ret. cbn [world out spawned].
      eexists. rewrite append_assoc. reflexivity.
    + rewrite bind_print. unfold ret. cbn [world out spawned].
      eexists. rewrite append_assoc. reflexivity.
  - destruct e; try (eexists; reflexivity).
    rewrite bind_print. unfold ret. cbn [world out spawned].
    eexists. rewrite append_assoc. reflexivity.
Qed.

Lemma check_api_key_world (s : state World) :
  exists text,
    Setup.check_api_key H L P s =
    (key_check H L P (world s), mkState (world s) (out s ++ text) (spawned s)).
Proof.
  assert (Hnot : forall s0 : state World,
             exists text,
               Setup.key_not_found s0 =
               (Ret false, mkState (world s0) (out s0 ++ text) (spawned s0))).
  { intros s0. unfold Setup.key_not_found.
    repeat (rewrite bind_print; cbn [world out spawned]).
    unfold ret. eexists. rewrite !append_assoc. reflexivity. }
  unfold Setup.check_api_key, key_check, bind at 1, Setup.os_getenv.
  destruct (negb (falsy (Setup.getenv L (world s) "CARVER_API_KEY"))).
  - rewrite bind_print. unfold ret. eexists. reflexivity.
  - cbv zeta. unfold bind at 1, path_exists.
    destruct (lookup H (world s) env) as [[t|]|] eqn:Hl.
    + unfold bind at 1, open_lines. rewrite Hl.
      destruct (Setup.key_line_found (readlines t)).
      * rewrite bind_print. unfold ret. eexists. reflexivity.
      * apply Hnot.
    + unfold bind at 1, open_lines. rewrite Hl.
      exists "". now rewrite append_nil_r; destruct s.
    + apply Hnot.
Qed.

Lemma test_connection_world (s : state World) :
  exists text,
    Setup.test_connection H L s =
    (Ret (connected (fst (Setup.list_topics L (world s)))),
     mkState (snd (Setup.list_topics L (world s))) (out s ++ text) (spawned s)).
Proof.
  unfold Setup.test_connection.
  destruct (Setup.list_topics L (world s)) as [[n| |e] w]; cbn [fst snd connected];
    repeat (rewrite bind_print; cbn [world out spawned]);
    unfold ret; eexists; rewrite ?append_assoc; reflexivity.
Qed.

Lemma main_greeted (s : state World) :
  Setup.main H L P Y s =
  bind (Setup.setup_venv H L P Y) (Setup.after_setup_venv H L P Y)
       (Setup.greeted s).
Proof. reflexivity. Qed.

(** How a run inside a virtual environment ends. *)
Lemma main_inside (s : state World) :
  Setup.is_venv Y = true ->
  fst (Setup.main H L P Y s) = outcome_in_venv H L P Y (world s).
Proof.
  intros Hv. rewrite main_greeted.
  rewrite (bind_run _ _ _ _ _ (setup_venv_inside (Setup.greeted s) Hv)).
  unfold Setup.after_setup_venv, outcome_in_venv. cbn [negb].
  rewrite (bind_run (ret tt) _ tt _ _ eq_refl). rewrite bind_print.
  cbn [world out spawned].
  change (world (Setup.greeted s)) with (world s).
  match goal with
  | |- context [bind (Setup.install_sdk H L Y) _ ?x] =>
      destruct (install_sdk_world x) as [t1 E1]; cbn [world out spawned] in E1
  end.
  destruct (Setup.check_call_piped L (Setup.install_call Y) (world s)) as [o w1].
  cbn [fst snd] in E1.
  destruct (install_result o) as [[|]|c|e].
  2: { rewrite (bind_run _ _ _ _ _ E1). cbn [negb].
       unfold bind at 1. rewrite bind_print. reflexivity. }
  2: { now rewrite (bind_exit _ _ _ _ _ E1). }
  2: { now rewrite (bind_raise _ _ _ _ _ E1). }
  rewrite (bind_run _ _ _ _ _ E1). cbn [negb].
  rewrite (bind_run (ret tt) _ tt _ _ eq_refl). rewrite bind_print.
  cbn [world out spawned].
  match goal with
  | |- context [bind (Setup.check_api_key H L P) _ ?x] =>
      destruct (check_api_key_world x) as [t2 E2]; cbn [world out spawned] in E2
  end.
  destruct (key_check H L P w1) as [[|]|c|e].
  2: { rewrite (bind_run _ _ _ _ _ E2). cbn [negb].
       unfold bind at 1. rewrite bind_print. reflexivity. }
  2: { now rewrite (bind_exit _ _ _ _ _ E2). }
  2: { now rewrite (bind_raise _ _ _ _ _ E2). }
  rewrite (bind_run _ _ _ _ _ E2). cbn [negb].
  rewrite (bind_run (ret tt) _ tt _ _ eq_refl). rewrite bind_print.
  cbn [world out spawned].
  match goal with
  | |- context [bind (Setup.test_connection H L) _ ?x] =>
      destruct (test_connection_world x) as [t3 E3]; cbn [world out spawned] in E3
  end.
  rewrite (bind_run _ _ _ _ _ E3).
  destruct (connected (fst (Setup.list_topics L w1))); cbn [negb].
  - rewrite (bind_run (ret tt) _ tt _ _ eq_refl).
    repeat (rewrite bind_print; cbn [world out spawned]).
    rewrite Hv. rewrite bind_print. reflexivity.
  - unfold bind at 1. rewrite bind_print. reflexivity.
Qed.

(** How a run outside a virtual environment ends. *)
Lemma main_outside (s : state World) :
  Setup.is_venv Y = false ->
  Setup.main H L P Y s =
  (Exit 1, snd (Setup.setup_venv H L P Y (Setup.greeted s))).
Proof.
  intros Hv.
  destruct (setup_venv_outside (Setup.greeted s) Hv) as (p & s' & E).
  rewrite main_greeted, (bind_run _ _ _ _ _ E), E. reflexivity.
Qed.

End SetupRuns.

Section SetupProperties.

Context {World : Type}.
Variable H : Host World.
Variable L : Setup.Library World.
Variable P : Process.
Variable Y : Setup.Sys.

Local Abbreviation env := (path_join H (os_getcwd P) ".env").

Lemma check_api_key_fst (s : state World) :
  fst (Setup.check_api_key H L P s) = key_check H L P (world s).
Proof. destruct (check_api_key_world H L P s) as [text ->]. reflexivity. Qed.

(** X9: the two scripts do not agree on what a configured key is.
[Setup.check_api_key] is satisfied by a non-empty [CARVER_API_KEY] in the
process environment, without looking at the file, or else by any line of the
credential file that starts with [CARVER_API_KEY=], whatever follows.  So it
accepts every file in which the provisioner's [check_env_file] finds a key,
and it also accepts the file that holds only the placeholder, which
[check_env_file] treats as no key at all. *)
Theorem check_api_key_accepts_more (s : state World) :
  (fst (Setup.check_api_key H L P s) = Ret true <->
   falsy (Setup.getenv L (world s) "CARVER_API_KEY") = false \/
   exists t line,
     lookup H (world s) env = Some (File t) /\ In line (readlines t) /\
     startswith (strip line) "CARVER_API_KEY=" = true)
  /\ (forall k,
         fst (check_env_file H (os_getcwd P) s) = Ret (true, Some k) ->
         fst (Setup.check_api_key H L P s) = Ret true)
  /\ (forall t,
         lookup H (world s) env = Some (File t) ->
         placeholder_only t ->
         fst (check_env_file H (os_getcwd P) s) = Ret (false, None) /\
         fst (Setup.check_api_key H L P s) = Ret true).
Proof.
  assert (Hiff : fst (Setup.check_api_key H L P s) = Ret true <->
                 falsy (Setup.getenv L (world s) "CARVER_API_KEY") = false \/
                 exists t line,
                   lookup H (world s) env = Some (File t) /\ In line (readlines t) /\
                   startswith (strip line) "CARVER_API_KEY=" = true).
  { rewrite check_api_key_fst. unfold key_check.
    destruct (falsy (Setup.getenv L (world s) "CARVER_API_KEY")); cbn [negb].
    - destruct (lookup H (world s) env) as [[t|]|].
      + split.
        * intros [= Hk]. right. apply key_line_found_spec in Hk as (line & Hin & Hp).
          now exists t, line.
        * intros [Hf | (t' & line & [= <-] & Hin & Hp)]; [discriminate|].
          f_equal. apply key_line_found_spec. now exists line.
      + split; [discriminate|].
        intros [Hf | (t' & line & Hl & _)]; discriminate.
      + split; [discriminate|].
        intros [Hf | (t' & line & Hl & _)]; discriminate.
    - split; auto. }
  split; [exact Hiff|]. split.
  - intros k Hk. apply Hiff.
    destruct (lookup H (world s) env) as [[t|]|] eqn:Hl.
    + rewrite (check_env_file_text H _ _ _ Hl) in Hk. cbn [fst] in Hk.
      destruct (first_key (readlines t)) as [k'|] eqn:Ek; [|discriminate].
      destruct (first_key_some _ _ Ek) as (line & Hin & Hline).
      right. exists t, line. repeat split; auto.
      unfold key_of_line in Hline.
      now destruct (startswith (strip line) "CARVER_API_KEY=").
    + rewrite (check_env_file_dir H _ _ Hl) in Hk. discriminate.
    + rewrite (check_env_file_missing H _ _ Hl) in Hk. discriminate.
  - intros t Hl Ht. split.
    + rewrite (check_env_file_text H _ _ _ Hl).
      now destruct Ht as [-> | ->].
    + apply Hiff. right.
      destruct Ht as [-> | ->].
      * exists "CARVER_API_KEY=your_api_key_here", "CARVER_API_KEY=your_api_key_here".
        repeat split; auto. now left.
      * exists ("CARVER_API_KEY=your_api_key_here" ++ nl),
               ("CARVER_API_KEY=your_api_key_here" ++ nl).
        repeat split; auto. now left.
Qed.


Lemma install_result_true (o : Outcome) :
  install_result o = Ret true <-> exists r, o = Completed r /\ returncode r = 0.
Proof.
  destruct o as [r|e]; cbn [install_result].
  - split.
    + intros [= Hr]. exists r. split; [reflexivity | now apply Z.eqb_eq].
    + intros (r' & [= <-] & Hr). f_equal. now apply Z.eqb_eq.
  - split; [destruct e; discriminate | intros (r' & Hr & _); discriminate].
Qed.

Lemma key_check_no_exit (w : World) (c : Z) : key_check H L P w <> Exit c.
Proof.
  unfold key_check.
  destruct (negb (falsy (Setup.getenv L w "CARVER_API_KEY"))); [discriminate|].
  destruct (lookup H w env) as [[t|]|]; discriminate.
Qed.

Lemma install_result_no_exit (o : Outcome) (c : Z) : install_result o <> Exit c.
Proof. destruct o as [r|[]]; discriminate. Qed.

(** X11: when the manual setup succeeds.  [main] runs off its end, status 0,
exactly when it runs inside a virtual environment, the pip child ends with
status zero, a key is configured on the machine the child leaves, and the
listing of topics comes back; in every other case the status is 1.  The SDK
is installed on every such run: there is no probe before the pip child. *)
Theorem setup_main_status (s : state World) :
  let o := fst (Setup.check_call_piped L (Setup.install_call Y) (world s)) in
  let w1 := snd (Setup.check_call_piped L (Setup.install_call Y) (world s)) in
  (exit_status (Setup.main H L P Y s) = 0 \/ exit_status (Setup.main H L P Y s) = 1)
  /\ (exit_status (Setup.main H L P Y s) = 0 <->
      Setup.is_venv Y = true /\
      (exists r, o = Completed r /\ returncode r = 0) /\
      key_check H L P w1 = Ret true /\
      (exists n, fst (Setup.list_topics L w1) = Setup.Topics n)).
Proof.
  cbv zeta. destruct (Setup.is_venv Y) eqn:Hv.
  - unfold exit_status. rewrite (main_inside H L P Y s Hv). unfold outcome_in_venv.
    destruct (Setup.check_call_piped L (Setup.install_call Y) (world s)) as [o w1].
    cbn [fst snd]. pose proof (install_result_true o) as Hi.
    pose proof (install_result_no_exit o) as Hie.
    pose proof (key_check_no_exit w1) as Hke.
    destruct (install_result o) as [[|]|c|e];
      [destruct (key_check H L P w1) as [[|]|c|e];
       [destruct (fst (Setup.list_topics L w1)) as [n| |e]; cbn [connected]| | |]
      | | |];
      try (exfalso; eapply Hie; reflexivity);
      try (exfalso; eapply Hke; reflexivity);
      (split; [auto|]); (split; [try discriminate | ]);
      try (intros (_ & Hr & Hk & n' & Hn); try discriminate;
           apply Hi in Hr; discriminate).
    + intros _. repeat split; auto; [now apply Hi | now exists n].
    + reflexivity.
  - rewrite (main_outside H L P Y s Hv).
    unfold exit_status. cbn [fst]. split; [now right|].
    split; [discriminate | intros (Hx & _); discriminate].
Qed.

End SetupProperties.

Section SetupInstall.

Context {World : Type}.
Variable H : Host World.
Variable L : Setup.Library World.
Variable P : Process.
Variable Y : Setup.Sys.

(** X12: the manual installation catches one kind of failure only.  A pip
child that ends with a non-zero status makes [Setup.install_sdk] return
[False] and [main] exit with status 1 after its own message.  A call that
fails in any other way (the interpreter cannot be started, say) is not
caught: the exception leaves [install_sdk] and ends [main] unhandled. *)
Theorem setup_install_catches_status_only (s : state World) :
  Setup.is_venv Y = true ->
  (forall r w,
      Setup.check_call_piped L (Setup.install_call Y) (world s) = (Completed r, w) ->
      returncode r <> 0 ->
      fst (Setup.install_sdk H L Y s) = Ret false /\
      fst (Setup.main H L P Y s) = Exit 1)
  /\ (forall e w,
         Setup.check_call_piped L (Setup.install_call Y) (world s) = (Failed e, w) ->
         (forall rc cmd, e <> CalledProcessError rc cmd) ->
         fst (Setup.install_sdk H L Y s) = Raise e /\
         fst (Setup.main H L P Y s) = Raise e).
Proof.
  intros Hv. split.
  - intros r w Hc Hr.
    destruct (install_sdk_world H L Y s) as [text ->].
    rewrite (main_inside H L P Y s Hv). unfold outcome_in_venv.
    rewrite Hc. cbn [fst install_result].
    apply Z.eqb_neq in Hr. rewrite Hr. now split.
  - intros e w Hc He.
    destruct (install_sdk_world H L Y s) as [text ->].
    rewrite (main_inside H L P Y s Hv). unfold outcome_in_venv.
    rewrite Hc. cbn [fst].
    destruct e; cbn [install_result]; try now split.
    exfalso. eapply He. reflexivity.
Qed.

End SetupInstall.

(** ** Further runs on the sample machine *)

Lemma check_env_file_key_usable_sample :
  "ab=cd==" <> "" /\ "ab=cd==" <> placeholder /\ trimmed "ab=cd==".
Proof.
  exact (proj2 (check_env_file_key_usable host "/work"
                  (start Sample.layered) (start Sample.layered)
                  true (Some "ab=cd==") eq_refl)
               "ab=cd==" eq_refl).
Defined.



Lemma ensure_venv_without_interpreter_sample :
  fst (ensure_venv host proc (start Sample.bare)) = Exit 1 /\
  spawned (snd (ensure_venv host proc (start Sample.bare)))
  = map version_call candidates.
Proof.
  assert (HR : Rejected host candidates Sample.bare Sample.bare).
  { unfold candidates.
    repeat (eapply Rejected_cons; [reflexivity | reflexivity |]).
    apply Rejected_nil. }
  rewrite (ensure_venv_without_interpreter host proc (start Sample.bare)
             Sample.bare eq_refl HR).
  split; reflexivity.
Defined.

Lemma ensure_venv_builds_with_first_match_sample :
  exists text,
    ensure_venv host proc (start Sample.fresh) =
    (Ret "/skill/.venv/bin/python",
     mkState (Sample.mkWorld [("/skill/.venv", Dir)]
                             [("python3.11", "Python 3.11.2")] [] true
                             Sample.connected)
             text
             [version_call "python3.12"; version_call "python3.11";
              mkCall ["python3.11"; "-m"; "venv"; "/skill/.venv"] false false 60]).
Proof.
  refine (ensure_venv_builds_with_first_match host proc
            ["python3.12"] "python3.11" (skipn 2 candidates)
            (start Sample.fresh) Sample.fresh Sample.fresh _
            (mkCompleted 0 ("Python 3.11.2" ++ nl) "")
            (mkCompleted 0 "" "")
            eq_refl eq_refl _ eq_refl eq_refl eq_refl eq_refl eq_refl).
  eapply Rejected_cons; [reflexivity | reflexivity | apply Rejected_nil].
Defined.


Lemma setup_main_status_sample :
  exit_status (Setup.main host (SetupSample.library None SetupSample.three_topics)
                          SetupSample.proc SetupSample.inside
                          (start Sample.ready)) = 0.
Proof.
  apply (proj2 (proj2 (setup_main_status host
                         (SetupSample.library None SetupSample.three_topics)
                         SetupSample.proc SetupSample.inside
                         (start Sample.ready)))).
  repeat split.
  - exists (mkCompleted 0 "" ""). split; reflexivity.
  - exists 3%nat. reflexivity.
Defined.

Lemma setup_install_catches_status_only_sample :
  fst (Setup.main host (SetupSample.library_without_pip None SetupSample.three_topics)
                  SetupSample.proc SetupSample.inside (start Sample.ready))
  = Raise (OSError "PermissionError" "/work/.venv/bin/python").
Proof.
  exact (proj2 (proj2 (setup_install_catches_status_only host
                         (SetupSample.library_without_pip None
                                                          SetupSample.three_topics)
                         SetupSample.proc SetupSample.inside
                         (start Sample.ready) eq_refl)
                      (OSError "PermissionError" "/work/.venv/bin/python")
                      Sample.ready eq_refl
                      (fun rc cmd E => eq_ind (OSError "PermissionError"
                                                 "/work/.venv/bin/python")
                                          (fun e => match e with
                                                    | OSError _ _ => True
                                                    | _ => False
                                                    end) I _ E))).
Defined.

(** ** Line endings and the environment of the manual setup *)

Lemma readlines_from_crlf (t : string) :
  has_char (ascii_of_nat 13) t = false ->
  forall cur, readlines_from cur (crlf t) = readlines_from cur t.
Proof.
  induction t as [|c t IH]; intros Hcr cur; [reflexivity|].
  cbn [has_char] in Hcr. apply orb_false_iff in Hcr as [Hc Ht].
  cbn [crlf]. destruct (Ascii.eqb c (ascii_of_nat 10)) eqn:Elf.
  - cbn [readlines_from]. rewrite Elf.
    change (Ascii.eqb (ascii_of_nat 13) (ascii_of_nat 10)) with false.
    change (Ascii.eqb (ascii_of_nat 13) (ascii_of_nat 13)) with true.
    change (Ascii.eqb (ascii_of_nat 10) (ascii_of_nat 10)) with true.
    cbv iota. now rewrite IH.
  - cbn [readlines_from]. rewrite Elf, Hc. now apply IH.
Qed.

(** X13: line endings do not matter to [check_env_file].  For a credential
file without carriage returns, the same file saved with Windows line endings
gives the same answer, key included. *)
Theorem check_env_file_crlf {World} (H : Host World) (d t : string)
        (s s' : state World) :
  has_char (ascii_of_nat 13) t = false ->
  lookup H (world s) (path_join H d ".env") = Some (File t) ->
  lookup H (world s') (path_join H d ".env") = Some (File (crlf t)) ->
  fst (check_env_file H d s') = fst (check_env_file H d s).
Proof.
  intros Hcr Hl Hl'.
  rewrite (check_env_file_text H d _ s Hl), (check_env_file_text H d _ s' Hl').
  unfold readlines. now rewrite readlines_from_crlf.
Qed.

Lemma check_env_file_crlf_sample :
  fst (check_env_file host "/work"
         (start (Sample.installed
                   [("/work/.env",
                     File (crlf ("# credentials" ++ nl
                                 ++ "CARVER_API_KEY=abc123" ++ nl)))]
                   Sample.connected)))
  = fst (check_env_file host "/work"
           (start (Sample.installed
                     [("/work/.env",
                       File ("# credentials" ++ nl
                             ++ "CARVER_API_KEY=abc123" ++ nl))]
                     Sample.connected))).
Proof.
  exact (check_env_file_crlf host "/work"
           ("# credentials" ++ nl ++ "CARVER_API_KEY=abc123" ++ nl)
           (start (Sample.installed
                     [("/work/.env",
                       File ("# credentials" ++ nl
                             ++ "CARVER_API_KEY=abc123" ++ nl))]
                     Sample.connected))
           (start (Sample.installed
                     [("/work/.env",
                       File (crlf ("# credentials" ++ nl
                                   ++ "CARVER_API_KEY=abc123" ++ nl)))]
                     Sample.connected))
           eq_refl eq_refl eq_refl).
Defined.






Section SetupEnvironment.

Context {World : Type}.
Variable H : Host World.
Variable L : Setup.Library World.
Variable P : Process.
Variable Y : Setup.Sys.

Local Abbreviation venv := (path_join H (os_getcwd P) ".venv").



End SetupEnvironment.
